(** * Key-value store clients: a shallow embedding

    The two scripts [basic_example.py] and [encrypted_example.py] are
    thin clients of a remote key-value service.  Each client method builds
    one HTTP request, checks the status of the answer and extracts a field
    of its JSON body; the encrypted client wraps the data in an envelope
    made with a password-derived Fernet cipher.

    Python values are embedded as an inductive type of JSON-like values,
    exceptions as an error monad, HTTP calls as events of a small program
    monad that is run against an arbitrary server, and the third-party
    libraries ([json], [base64], [cryptography]) as a class of operations
    with their documented contracts stated as separate laws. *)

From Stdlib Require Import ZArith Lia List String Ascii Bool.
From Stdlib Require Import Strings.Byte.
From stdpp Require Import gmap strings list pretty.
Import ListNotations.

Local Open Scope string_scope.
Local Open Scope Z_scope.
#[local] Set Warnings "-register-all".

(** ** Python data *)

(** [bytes] objects. *)
Definition bytes := list byte.

(** [str] objects, held as the sequence of their UTF-8 code units; a lone
    surrogate, which has no UTF-8 encoding, is held in the three-byte form
    of its code point. *)
Definition str := string.

(** The exceptions that the two scripts and their libraries can raise. *)
Inductive exn : Type :=
| HTTPError (status : Z)
| ConnectionError
| JSONDecodeError
| InvalidJSONError
| KeyError (key : str)
| TypeError
| AttributeError
| ValueError (msg : str)
| InvalidToken
| UnicodeDecodeError
| UnicodeEncodeError
| BinasciiError
| ImportError.

(** The exceptions that are instances of [ValueError]. *)
Definition is_value_error (e : exn) : bool :=
  match e with
  | ValueError _ | JSONDecodeError | UnicodeDecodeError | UnicodeEncodeError
  | BinasciiError => true
  | _ => false
  end.

(** A computation that returns a value or raises. *)
Inductive result (A : Type) : Type :=
| Ok (a : A)
| Err (e : exn).
Arguments Ok {A} a.
Arguments Err {A} e.

Global Instance result_ret : MRet result := fun _ a => Ok a.
Global Instance result_bind : MBind result := fun _ _ f r =>
  match r with
  | Ok a => f a
  | Err e => Err e
  end.

(** Python values: the JSON-compatible ones, and tuples and sets, which
    [json] turns into lists and refuses.  A dict keeps its keys in
    insertion order, as Python dicts do. *)
Inductive pyval : Type :=
| PNone
| PBool (b : bool)
| PInt (z : Z)
| PStr (s : str)
| PList (l : list pyval)
| PDict (d : list (str * pyval))
| PTuple (l : list pyval)
| PSet (l : list pyval).

Definition dict := list (str * pyval).

(** [d.get(k)] at the level of the association list. *)
Fixpoint dict_get (d : dict) (k : str) : option pyval :=
  match d with
  | [] => None
  | (k', v) :: d' => if String.eqb k' k then Some v else dict_get d' k
  end.

(** [d[k] = v]: replaces the value of an existing key in place, appends a
    new key at the end. *)
Fixpoint dict_set (d : dict) (k : str) (v : pyval) : dict :=
  match d with
  | [] => [(k, v)]
  | (k', v') :: d' =>
      if String.eqb k' k then (k', v) :: d' else (k', v') :: dict_set d' k v
  end.

(** Truth value of an object, as tested by [if x:] and [not x]. *)
Definition truthy (v : pyval) : bool :=
  match v with
  | PNone => false
  | PBool b => b
  | PInt z => negb (z =? 0)
  | PStr s => negb (String.eqb s EmptyString)
  | PList l => match l with [] => false | _ => true end
  | PDict d => match d with [] => false | _ => true end
  | PTuple l => match l with [] => false | _ => true end
  | PSet l => match l with [] => false | _ => true end
  end.

(** Truth value of an [Optional[int]] argument. *)
Definition truthy_opt_int (o : option Z) : bool :=
  match o with
  | None => false
  | Some z => negb (z =? 0)
  end.

(** [v[k]] with a string key. *)
Definition getitem (v : pyval) (k : str) : result pyval :=
  match v with
  | PDict d =>
      match dict_get d k with
      | Some x => Ok x
      | None => Err (KeyError k)
      end
  | _ => Err TypeError
  end.

(** [v.get(k)]: only dicts have the method. *)
Definition get_method (v : pyval) (k : str) : result pyval :=
  match v with
  | PDict d =>
      match dict_get d k with
      | Some x => Ok x
      | None => Ok PNone
      end
  | _ => Err AttributeError
  end.

(** ** Text and bytes *)

Definition byte_val (b : byte) : Z := Z.of_N (Byte.to_N b).

Definition in_range (lo hi : Z) (b : byte) : bool :=
  (lo <=? byte_val b) && (byte_val b <=? hi).

Definition is_ascii (l : bytes) : bool :=
  forallb (fun b => byte_val b <? 128) l.

(** Well-formed UTF-8 (RFC 3629), the check made by [bytes.decode()]. *)
Fixpoint utf8_valid (l : bytes) : bool :=
  match l with
  | [] => true
  | b0 :: t =>
      if byte_val b0 <? 128 then utf8_valid t
      else if in_range 194 223 b0 then
        match t with
        | b1 :: t1 => in_range 128 191 b1 && utf8_valid t1
        | _ => false
        end
      else if in_range 224 239 b0 then
        match t with
        | b1 :: b2 :: t2 =>
            (if byte_val b0 =? 224 then in_range 160 191 b1
             else if byte_val b0 =? 237 then in_range 128 159 b1
             else in_range 128 191 b1)
            && in_range 128 191 b2 && utf8_valid t2
        | _ => false
        end
      else if in_range 240 244 b0 then
        match t with
        | b1 :: b2 :: b3 :: t3 =>
            (if byte_val b0 =? 240 then in_range 144 191 b1
             else if byte_val b0 =? 244 then in_range 128 143 b1
             else in_range 128 191 b1)
            && in_range 128 191 b2 && in_range 128 191 b3 && utf8_valid t3
        | _ => false
        end
      else false
  end.

(** The code units of a text: [s.encode()] for a text without lone
    surrogates. *)
Definition str_encode (s : str) : bytes := list_byte_of_string s.

(** [s.encode()] for any text: a lone surrogate cannot be encoded. *)
Definition encode_text (s : str) : result bytes :=
  if utf8_valid (str_encode s) then Ok (str_encode s) else Err UnicodeEncodeError.

(** [b.decode()] and [b.decode('utf-8')] *)
Definition bytes_decode (b : bytes) : result str :=
  if utf8_valid b then Ok (string_of_list_byte b) else Err UnicodeDecodeError.

(** [s.rstrip('/')]: drops every trailing slash. *)
Fixpoint rstrip_slash (s : str) : str :=
  match s with
  | EmptyString => EmptyString
  | String c t =>
      let t' := rstrip_slash t in
      if Ascii.eqb c "/"%char && String.eqb t' EmptyString then EmptyString else String c t'
  end.

(** ** HTTP, as the [requests] package presents it *)

Inductive http_method : Type := GET | POST.

Record request : Type := {
  req_method : http_method;
  req_url : str;
  req_params : list (str * str);
  req_json : option pyval;
  req_headers : list (str * str)
}.

Record response : Type := {
  status_code : Z;
  text : str
}.

(** A client method is a program that may send requests and wait for
    their answers, return, or raise. *)
Inductive prog (A : Type) : Type :=
| Ret (a : A)
| Raise (e : exn)
| Send (r : request) (k : response -> prog A).
Arguments Ret {A} a.
Arguments Raise {A} e.
Arguments Send {A} r k.

Fixpoint prog_bind {A B} (f : A -> prog B) (p : prog A) : prog B :=
  match p with
  | Ret a => f a
  | Raise e => Raise e
  | Send r k => Send r (fun resp => prog_bind f (k resp))
  end.

Global Instance prog_ret : MRet prog := fun _ a => Ret a.
Global Instance prog_mbind : MBind prog := fun _ _ f p => prog_bind f p.

Definition lift {A} (r : result A) : prog A :=
  match r with
  | Ok a => Ret a
  | Err e => Raise e
  end.

(** Running a program against a service.  The service is a transition
    function on a state of its own; an answer is a response, or an
    exception of the transport.  The run gives the outcome, the final state
    of the service and the requests sent, oldest first. *)
Section Run.
Context {S : Type} (server : S -> request -> S * result response).

Fixpoint run {A} (p : prog A) (s : S) : result A * S * list request :=
  match p with
  | Ret a => (Ok a, s, [])
  | Raise e => (Err e, s, [])
  | Send r k =>
      match server s r with
      | (s', Ok resp) =>
          let '(res, s'', sent) := run (k resp) s' in (res, s'', r :: sent)
      | (s', Err e) => (Err e, s', [r])
      end
  end.

Definition outcome {A} (p : prog A) (s : S) : result A := (run p s).1.1.
Definition sent {A} (p : prog A) (s : S) : list request := (run p s).2.
End Run.

(** [response.raise_for_status()]: [HTTPError] for the 4xx and 5xx
    statuses, nothing otherwise. *)
Definition raise_for_status (resp : response) : prog unit :=
  if (400 <=? status_code resp) && (status_code resp <? 600)
  then Raise (HTTPError (status_code resp))
  else Ret tt.

(** ** The libraries *)

Inductive hash_algorithm : Type := SHA256.

(** The arguments of the key derivation object. *)
Record PBKDF2 : Type := {
  kdf_algorithm : hash_algorithm;
  kdf_length : nat;
  kdf_salt : bytes;
  kdf_iterations : Z
}.

(** A Fernet cipher holds the two halves of its 32-byte key. *)
Record Fernet : Type := {
  signing_key : bytes;
  encryption_key : bytes
}.

(** What [Fernet.encrypt] reads from its environment: the clock and 16
    bytes of [os.urandom]. *)
Record entropy : Type := {
  current_time : Z;
  iv : bytes
}.

(** The library functions the scripts call.  [import_PBKDF2] is what the
    name [PBKDF2] of [cryptography.hazmat.primitives.kdf.pbkdf2] resolves
    to: the [derive] of an instance made from its arguments, or the
    [ImportError] of a library that exports no such name (the published
    package exports [PBKDF2HMAC]). *)
Class Library : Type := {
  json_dumps : pyval -> result str;
  json_loads : str -> result pyval;
  b64encode : bytes -> bytes;
  b64decode : bytes -> result bytes;
  urlsafe_b64encode : bytes -> bytes;
  urlsafe_b64decode : bytes -> result bytes;
  import_PBKDF2 : result (PBKDF2 -> bytes -> bytes);
  Fernet_encrypt : Fernet -> entropy -> bytes -> bytes;
  Fernet_decrypt : Fernet -> bytes -> result bytes
}.

Section WithLibrary.
Context `{L : Library}.

(** [Fernet(key)]: the key is 32 bytes in URL-safe base64. *)
Definition Fernet_init (key : bytes) : result Fernet :=
  match urlsafe_b64decode key with
  | Ok raw =>
      if (length raw =? 32)%nat
      then Ok {| signing_key := take 16 raw; encryption_key := drop 16 raw |}
      else Err (ValueError "Fernet key must be 32 url-safe base64-encoded bytes.")
  | Err _ => Err (ValueError "Fernet key must be 32 url-safe base64-encoded bytes.")
  end.

(** [base64.b64decode(v)] on an object: a [str] argument must be ASCII. *)
Definition b64decode_obj (v : pyval) : result bytes :=
  match v with
  | PStr s =>
      if is_ascii (str_encode s) then b64decode (str_encode s)
      else Err (ValueError "string argument should contain only ASCII characters")
  | _ => Err TypeError
  end.

(** [requests.get(url, params=params)] *)
Definition requests_get (url : str) (params : list (str * str)) : prog response :=
  Send {| req_method := GET; req_url := url; req_params := params;
          req_json := None; req_headers := [] |} Ret.

(** What [requests] raises when serializing the body raised [e]: it
    wraps a [ValueError] into [InvalidJSONError] and lets any other
    exception through. *)
Definition post_error (e : exn) : exn :=
  if is_value_error e then InvalidJSONError else e.

(** [requests.post(url, json=json, headers=headers)]: the body is the
    serialization of [json], so nothing is sent when that fails. *)
Definition requests_post (url : str) (json : pyval) (headers : list (str * str))
  : prog response :=
  match json_dumps json with
  | Ok _ =>
      Send {| req_method := POST; req_url := url; req_params := [];
              req_json := Some json; req_headers := headers |} Ret
  | Err e => Raise (post_error e)
  end.

(** [response.json()] *)
Definition response_json (resp : response) : prog pyval :=
  lift (json_loads (text resp)).
End WithLibrary.

(** The value stored under ["ttl"] for a given argument. *)
Definition opt_int_val (o : option Z) : pyval :=
  match o with
  | None => PNone
  | Some z => PInt z
  end.

(** ** [basic_example.py]: class [KeyValueClient] *)

Module KeyValueClient.
Record t : Type := { base_url : str }.

Definition __init__ (base_url : str) : t :=
  {| base_url := rstrip_slash base_url |}.

Section Methods.
Context `{L : Library}.

Definition generate_token (self : t) : prog pyval :=
  response ← requests_get (base_url self +:+ "/api/generate") [];
  _ ← raise_for_status response;
  data ← response_json response;
  lift (getitem data "token").

Definition store (self : t) (token : str) (data : pyval) (ttl : option Z)
  : prog pyval :=
  let payload := [("token", PStr token); ("data", data)] in
  let payload :=
    if truthy_opt_int ttl then dict_set payload "ttl" (opt_int_val ttl)
    else payload in
  response ← requests_post (base_url self +:+ "/api/store") (PDict payload)
               [("Content-Type", "application/json")];
  _ ← raise_for_status response;
  response_json response.

Definition retrieve (self : t) (token : str) : prog pyval :=
  response ← requests_get (base_url self +:+ "/api/retrieve")
               [("token", token)];
  _ ← raise_for_status response;
  data ← response_json response;
  lift (getitem data "data").
End Methods.
End KeyValueClient.

(** ** [encrypted_example.py]: class [EncryptedKeyValueClient] *)

Module EncryptedKeyValueClient.
Record t : Type := { base_url : str; cipher : Fernet }.

Section Methods.
Context `{L : Library}.

(** The script imports [PBKDF2] at its head, so with a library that
    raises there the class is never defined and no client exists.  The
    import is accounted for here, on the one path that builds a client:
    every client that a method is given was built after it succeeded. *)
Definition _create_cipher (password : str) : result Fernet :=
  derive ← import_PBKDF2;
  let salt := str_encode "keyvalue-store-salt-change-this!" in
  let kdf := {| kdf_algorithm := SHA256; kdf_length := 32;
                kdf_salt := salt; kdf_iterations := 100000 |} in
  key_material ← encode_text password;
  let key := urlsafe_b64encode (derive kdf key_material) in
  Fernet_init key.

Definition __init__ (base_url password : str) : result t :=
  cipher ← _create_cipher password;
  mret {| base_url := rstrip_slash base_url; cipher := cipher |}.

Definition generate_token (self : t) : prog pyval :=
  response ← requests_get (base_url self +:+ "/api/generate") [];
  _ ← raise_for_status response;
  data ← response_json response;
  lift (getitem data "token").

(** [rnd] is what this call of [Fernet.encrypt] reads from the clock
    and the random source. *)
Definition _encrypt_data (self : t) (rnd : entropy) (data : pyval)
  : result pyval :=
  json_str ← json_dumps data;
  let encrypted := Fernet_encrypt (cipher self) rnd (str_encode json_str) in
  payload ← bytes_decode (b64encode encrypted);
  mret (PDict [("encrypted", PBool true); ("payload", PStr payload)]).

Definition _decrypt_data (self : t) (encrypted_data : pyval) : result pyval :=
  flag ← get_method encrypted_data "encrypted";
  if negb (truthy flag) then Err (ValueError "Data is not encrypted")
  else
    item ← getitem encrypted_data "payload";
    payload ← b64decode_obj item;
    decrypted ← Fernet_decrypt (cipher self) payload;
    json_str ← bytes_decode decrypted;
    json_loads json_str.

Definition store (self : t) (rnd : entropy) (token : str) (data : pyval)
  (ttl : option Z) : prog pyval :=
  encrypted_data ← lift (_encrypt_data self rnd data);
  let payload := [("token", PStr token); ("data", encrypted_data)] in
  let payload :=
    if truthy_opt_int ttl then dict_set payload "ttl" (opt_int_val ttl)
    else payload in
  response ← requests_post (base_url self +:+ "/api/store") (PDict payload)
               [("Content-Type", "application/json")];
  _ ← raise_for_status response;
  response_json response.

Definition retrieve (self : t) (token : str) : prog pyval :=
  response ← requests_get (base_url self +:+ "/api/retrieve")
               [("token", token)];
  _ ← raise_for_status response;
  data ← response_json response;
  item ← lift (getitem data "data");
  lift (_decrypt_data self item).
End Methods.
End EncryptedKeyValueClient.

(** ** The service behind the API *)

Module EntryStore.
Inductive error : Type :=
| InvalidToken
| InvalidTTL
| PayloadTooLarge
| NotFound.

Inductive reply (A : Type) : Type :=
| Done (a : A)
| Fail (e : error).
Arguments Done {A} a.
Arguments Fail {A} e.

Record Entry : Type := {
  payload : pyval;
  created_at : Z;
  updated_at : Z;
  expires_at : option Z;
  size_bytes : Z
}.

(** What the spec leaves to the deployment: the token grammar and its
    normal form, the size of a serialized payload and its bound, and the
    expiry given to a [put] without a ttl ([None]: the entry never
    expires). *)
Record config : Type := {
  valid_token : string -> bool;
  normalize : string -> string;
  serialized_size : pyval -> Z;
  MAX_PAYLOAD : Z;
  default_ttl : option Z
}.

(** Thirty days, in seconds. *)
Definition MAX_TTL : Z := 30 * 24 * 3600.

Definition valid_ttl (ttl : Z) : bool := (0 <? ttl) && (ttl <=? MAX_TTL).

Definition config_ok (cfg : config) : Prop :=
  match default_ttl cfg with
  | Some d => valid_ttl d = true
  | None => True
  end.

(** An entry is live until its expiry time is reached. *)
Definition live (now : Z) (e : Entry) : bool :=
  match expires_at e with
  | Some t => now <? t
  | None => true
  end.

(** Modelled from the spec: the server's [put] is not among the sources;
    this follows the spec's Entry Store contract: the token must match the
    generator grammar ([InvalidToken]), a given ttl must be positive and
    at most [MAX_TTL] ([InvalidTTL]), the serialized payload must fit
    ([PayloadTooLarge]); then the entry is created or fully replaced, its
    timestamps and expiry refreshed, and the new size returned. *)
Definition put (cfg : config) (now : Z) (m : gmap string Entry)
    (token : string) (p : pyval) (ttl : option Z)
  : reply (gmap string Entry * Z) :=
  if negb (valid_token cfg token) then Fail InvalidToken
  else if negb (from_option valid_ttl true ttl) then Fail InvalidTTL
  else
    let size := serialized_size cfg p in
    if MAX_PAYLOAD cfg <? size then Fail PayloadTooLarge
    else
      let key := normalize cfg token in
      let lifetime := match ttl with Some t => Some t | None => default_ttl cfg end in
      let created :=
        match m !! key with
        | Some old => if live now old then created_at old else now
        | None => now
        end in
      let e := {| payload := p; created_at := created; updated_at := now;
                  expires_at := (λ t, now + t) <$> lifetime;
                  size_bytes := size |} in
      Done (<[key := e]> m, size).

(** Modelled from the spec: the server's [get] is not among the sources;
    this follows the spec's Entry Store contract: the token format is
    checked, and the payload of the entry is returned when a live entry
    exists; an entry past its expiry counts as absent whether or not it
    was reaped ([NotFound]). *)
Definition get (cfg : config) (now : Z) (m : gmap string Entry)
    (token : string) : reply pyval :=
  if negb (valid_token cfg token) then Fail InvalidToken
  else
    match m !! normalize cfg token with
    | Some e => if live now e then Done (payload e) else Fail NotFound
    | None => Fail NotFound
    end.
End EntryStore.

(** ** An implementation of the library interface

    Base64 is implemented after RFC 4648 and JSON for ASCII text; the key
    derivation and the cipher are stand-ins that meet the contracts the
    clients rely on and offer no secrecy. *)

Module Base64.
Definition std_alphabet : bytes :=
  list_byte_of_string
    "ABCDEFGHIJKLMNOPQRSTUVWXYZabcdefghijklmnopqrstuvwxyz0123456789+/".

Definition url_alphabet : bytes :=
  list_byte_of_string
    "ABCDEFGHIJKLMNOPQRSTUVWXYZabcdefghijklmnopqrstuvwxyz0123456789-_".

(** The padding character [=]. *)
Definition pad : byte := x3d.

Definition of_val (n : Z) : byte :=
  default x00 (Byte.of_N (Z.to_N (n mod 256))).

Section Alphabet.
Variable alphabet : bytes.

Definition char (n : Z) : byte := nth (Z.to_nat n) alphabet pad.

Fixpoint index_from (l : bytes) (i : Z) (c : byte) : option Z :=
  match l with
  | [] => None
  | x :: t => if Byte.eqb x c then Some i else index_from t (i + 1) c
  end.

Definition index (c : byte) : option Z := index_from alphabet 0 c.

Fixpoint encode (l : bytes) : bytes :=
  match l with
  | [] => []
  | [a] =>
      let a := byte_val a in
      [char (a / 4); char (a mod 4 * 16); pad; pad]
  | [a; b] =>
      let a := byte_val a in
      let b := byte_val b in
      [char (a / 4); char (a mod 4 * 16 + b / 16); char (b mod 16 * 4); pad]
  | a :: b :: c :: rest =>
      let a := byte_val a in
      let b := byte_val b in
      let c := byte_val c in
      char (a / 4) :: char (a mod 4 * 16 + b / 16)
        :: char (b mod 16 * 4 + c / 64) :: char (c mod 64) :: encode rest
  end.

Definition is_nil (l : bytes) : bool :=
  match l with [] => true | _ => false end.

Fixpoint decode (l : bytes) : option bytes :=
  match l with
  | [] => Some []
  | c1 :: c2 :: c3 :: c4 :: rest =>
      match index c1, index c2 with
      | Some s1, Some s2 =>
          let b1 := of_val (s1 * 4 + s2 / 16) in
          if Byte.eqb c3 pad then
            if Byte.eqb c4 pad && is_nil rest then Some [b1] else None
          else
            match index c3 with
            | Some s3 =>
                let b2 := of_val (s2 mod 16 * 16 + s3 / 4) in
                if Byte.eqb c4 pad then
                  if is_nil rest then Some [b1; b2] else None
                else
                  match index c4 with
                  | Some s4 =>
                      let b3 := of_val (s3 mod 4 * 64 + s4) in
                      match decode rest with
                      | Some t => Some (b1 :: b2 :: b3 :: t)
                      | None => None
                      end
                  | None => None
                  end
            | None => None
            end
      | _, _ => None
      end
  | _ => None
  end.
End Alphabet.

Definition decode_result (alphabet : bytes) (l : bytes) : result bytes :=
  match decode alphabet l with
  | Some x => Ok x
  | None => Err BinasciiError
  end.
End Base64.

Module Json.
Definition quote : ascii := "034"%char.
Definition backslash : ascii := "\"%char.

Definition code_of (c : ascii) : Z := Z.of_N (N_of_ascii c).
Definition char_of (n : Z) : ascii := ascii_of_N (Z.to_N n).

Definition hex_digit (n : Z) : ascii :=
  char_of (if n <? 10 then 48 + n else 87 + n).

Definition hex4 (n : Z) : str :=
  String (hex_digit (n / 4096 mod 16))
    (String (hex_digit (n / 256 mod 16))
       (String (hex_digit (n / 16 mod 16))
          (String (hex_digit (n mod 16)) EmptyString))).

Definition u_escape (n : Z) : str :=
  String backslash (String "u"%char (hex4 n)).

(** The code points of a text, read off its code units. *)
Fixpoint code_points (l : bytes) : option (list Z) :=
  match l with
  | [] => Some []
  | b0 :: t =>
      let n0 := byte_val b0 in
      if n0 <? 128 then option_map (cons n0) (code_points t)
      else if in_range 194 223 b0 then
        match t with
        | b1 :: t1 =>
            if in_range 128 191 b1
            then option_map (cons ((n0 - 192) * 64 + (byte_val b1 - 128)))
                   (code_points t1)
            else None
        | _ => None
        end
      else if in_range 224 239 b0 then
        match t with
        | b1 :: b2 :: t2 =>
            if (if n0 =? 224 then in_range 160 191 b1 else in_range 128 191 b1)
               && in_range 128 191 b2
            then option_map
                   (cons ((n0 - 224) * 4096 + (byte_val b1 - 128) * 64
                          + (byte_val b2 - 128)))
                   (code_points t2)
            else None
        | _ => None
        end
      else if in_range 240 244 b0 then
        match t with
        | b1 :: b2 :: b3 :: t3 =>
            if (if n0 =? 240 then in_range 144 191 b1
                else if n0 =? 244 then in_range 128 143 b1
                else in_range 128 191 b1)
               && in_range 128 191 b2 && in_range 128 191 b3
            then option_map
                   (cons ((n0 - 240) * 262144 + (byte_val b1 - 128) * 4096
                          + (byte_val b2 - 128) * 64 + (byte_val b3 - 128)))
                   (code_points t3)
            else None
        | _ => None
        end
      else None
  end.

(** How a code point is written in a string literal: the short escapes,
    the printable ASCII characters as they are, and [\uXXXX] for the rest,
    a surrogate pair beyond the basic plane. *)
Definition escape_code (cp : Z) : str :=
  if cp =? 34 then String backslash (String quote EmptyString)
  else if cp =? 92 then String backslash (String backslash EmptyString)
  else if cp =? 10 then String backslash "n"
  else if cp =? 13 then String backslash "r"
  else if cp =? 9 then String backslash "t"
  else if cp =? 12 then String backslash "f"
  else if cp =? 8 then String backslash "b"
  else if (32 <=? cp) && (cp <=? 126) then String (char_of cp) EmptyString
  else if cp <? 65536 then u_escape cp
  else u_escape (55296 + (cp - 65536) / 1024)
       +:+ u_escape (56320 + (cp - 65536) mod 1024).

Definition literal (s : str) : option str :=
  match code_points (str_encode s) with
  | Some cps =>
      Some (String quote (String.concat EmptyString (map escape_code cps))
            +:+ String quote EmptyString)
  | None => None
  end.

(** [json.dumps] with its default separators: a tuple is written as a
    list, a set is refused. *)
Fixpoint render (v : pyval) : option str :=
  match v with
  | PNone => Some "null"
  | PBool true => Some "true"
  | PBool false => Some "false"
  | PInt z => Some (pretty z)
  | PStr s => literal s
  | PList l | PTuple l =>
      let fix items (l : list pyval) : option str :=
        match l with
        | [] => Some EmptyString
        | x :: t =>
            match render x, items t with
            | Some a, Some b =>
                Some (a +:+ match t with [] => EmptyString | _ => ", " +:+ b end)
            | _, _ => None
            end
        end in
      match items l with
      | Some body => Some ("[" +:+ body +:+ "]")
      | None => None
      end
  | PDict d =>
      let fix members (d : list (str * pyval)) : option str :=
        match d with
        | [] => Some EmptyString
        | (k, x) :: t =>
            match literal k, render x, members t with
            | Some q, Some a, Some b =>
                Some (q +:+ ": " +:+ a +:+ match t with [] => EmptyString | _ => ", " +:+ b end)
            | _, _, _ => None
            end
        end in
      match members d with
      | Some body => Some ("{" +:+ body +:+ "}")
      | None => None
      end
  | PSet _ => None
  end.

(** The rendering is ASCII by its construction; the test keeps that in
    sight. *)
Definition dumps (v : pyval) : result str :=
  match render v with
  | Some s => if is_ascii (str_encode s) then Ok s else Err TypeError
  | None => Err TypeError
  end.

Definition is_space (c : ascii) : bool :=
  Ascii.eqb c " "%char || Ascii.eqb c "009"%char || Ascii.eqb c "010"%char || Ascii.eqb c "013"%char.

Fixpoint skip_ws (s : str) : str :=
  match s with
  | String c t => if is_space c then skip_ws t else s
  | EmptyString => s
  end.

Definition digit (c : ascii) : option Z :=
  let n := Z.of_N (N_of_ascii c) in
  if (48 <=? n) && (n <=? 57) then Some (n - 48) else None.

Fixpoint digits (acc : Z) (s : str) : Z * str :=
  match s with
  | String c t =>
      match digit c with
      | Some d => digits (acc * 10 + d) t
      | None => (acc, s)
      end
  | EmptyString => (acc, s)
  end.

Definition hex_value (c : ascii) : option Z :=
  let n := code_of c in
  if (48 <=? n) && (n <=? 57) then Some (n - 48)
  else if (97 <=? n) && (n <=? 102) then Some (n - 87)
  else if (65 <=? n) && (n <=? 70) then Some (n - 55)
  else None.

Definition hex4_value (a b c d : ascii) : option Z :=
  match hex_value a, hex_value b, hex_value c, hex_value d with
  | Some a, Some b, Some c, Some d => Some (((a * 16 + b) * 16 + c) * 16 + d)
  | _, _, _, _ => None
  end.

(** The code units of a code point. *)
Definition utf8_units (cp : Z) : str :=
  if cp <? 128 then String (char_of cp) EmptyString
  else if cp <? 2048 then
    String (char_of (192 + cp / 64)) (String (char_of (128 + cp mod 64)) EmptyString)
  else if cp <? 65536 then
    String (char_of (224 + cp / 4096))
      (String (char_of (128 + cp / 64 mod 64))
         (String (char_of (128 + cp mod 64)) EmptyString))
  else
    String (char_of (240 + cp / 262144))
      (String (char_of (128 + cp / 4096 mod 64))
         (String (char_of (128 + cp / 64 mod 64))
            (String (char_of (128 + cp mod 64)) EmptyString))).

Definition with_prefix (p : str) (r : option (str * str)) : option (str * str) :=
  match r with
  | Some (body, rest) => Some (p +:+ body, rest)
  | None => None
  end.

(** The character of a short escape. *)
Definition short_escape (e : ascii) : option ascii :=
  if Ascii.eqb e quote || Ascii.eqb e backslash || Ascii.eqb e "/"%char
  then Some e
  else if Ascii.eqb e "b"%char then Some "008"%char
  else if Ascii.eqb e "f"%char then Some "012"%char
  else if Ascii.eqb e "n"%char then Some "010"%char
  else if Ascii.eqb e "r"%char then Some "013"%char
  else if Ascii.eqb e "t"%char then Some "009"%char
  else None.

(** The body of a string literal, after its opening quote.  A high
    surrogate escape joins the low surrogate escape that follows it. *)
Fixpoint string_body (s : str) : option (str * str) :=
  match s with
  | EmptyString => None
  | String c t =>
      if Ascii.eqb c quote then Some (EmptyString, t)
      else if code_of c <? 32 then None
      else if Ascii.eqb c backslash then
        match t with
        | String e t' =>
            if Ascii.eqb e "u"%char then
              match t' with
              | String h1 (String h2 (String h3 (String h4 t4))) =>
                  match hex4_value h1 h2 h3 h4 with
                  | Some hi =>
                      if (55296 <=? hi) && (hi <=? 56319) then
                        match t4 with
                        | String b (String u (String l1 (String l2
                            (String l3 (String l4 t10))))) =>
                            match hex4_value l1 l2 l3 l4 with
                            | Some lo =>
                                if Ascii.eqb b backslash && Ascii.eqb u "u"%char
                                   && (56320 <=? lo) && (lo <=? 57343)
                                then with_prefix
                                       (utf8_units (65536 + (hi - 55296) * 1024
                                                    + (lo - 56320)))
                                       (string_body t10)
                                else with_prefix (utf8_units hi) (string_body t4)
                            | None => with_prefix (utf8_units hi) (string_body t4)
                            end
                        | _ => with_prefix (utf8_units hi) (string_body t4)
                        end
                      else with_prefix (utf8_units hi) (string_body t4)
                  | None => None
                  end
              | _ => None
              end
            else
              match short_escape e with
              | Some x => with_prefix (String x EmptyString) (string_body t')
              | None => None
              end
        | EmptyString => None
        end
      else with_prefix (String c EmptyString) (string_body t)
  end.

Definition keyword (k : str) (v : pyval) (s : str) : option (pyval * str) :=
  if String.prefix k s
  then Some (v, String.substring (String.length k)
                  (String.length s - String.length k)%nat s)
  else None.

(** Recursive descent, with the number of nested calls bounded by
    [fuel]. *)
Fixpoint value (fuel : nat) (s : str) : option (pyval * str) :=
  match fuel with
  | O => None
  | S fuel =>
      match skip_ws s with
      | String c t =>
          if Ascii.eqb c "n"%char then keyword "null" PNone (String c t)
          else if Ascii.eqb c "t"%char then keyword "true" (PBool true) (String c t)
          else if Ascii.eqb c "f"%char then keyword "false" (PBool false) (String c t)
          else if Ascii.eqb c quote then
            match string_body t with
            | Some (body, rest) => Some (PStr body, rest)
            | None => None
            end
          else if Ascii.eqb c "-"%char then
            match t with
            | String d _ =>
                match digit d with
                | Some _ => let '(n, rest) := digits 0 t in Some (PInt (- n), rest)
                | None => None
                end
            | EmptyString => None
            end
          else if Ascii.eqb c "["%char then
            match skip_ws t with
            | String "]"%char rest => Some (PList [], rest)
            | _ => items fuel t []
            end
          else if Ascii.eqb c "{"%char then
            match skip_ws t with
            | String "}"%char rest => Some (PDict [], rest)
            | _ => members fuel t []
            end
          else
            match digit c with
            | Some _ => let '(n, rest) := digits 0 (String c t) in Some (PInt n, rest)
            | None => None
            end
      | EmptyString => None
      end
  end
with items (fuel : nat) (s : str) (acc : list pyval) : option (pyval * str) :=
  match fuel with
  | O => None
  | S fuel =>
      match value fuel s with
      | Some (v, rest) =>
          match skip_ws rest with
          | String ","%char rest' => items fuel rest' (v :: acc)
          | String "]"%char rest' => Some (PList (rev (v :: acc)), rest')
          | _ => None
          end
      | None => None
      end
  end
with members (fuel : nat) (s : str) (acc : dict) : option (pyval * str) :=
  match fuel with
  | O => None
  | S fuel =>
      match skip_ws s with
      | String c t =>
          if Ascii.eqb c quote then
            match string_body t with
            | Some (k, rest) =>
                match skip_ws rest with
                | String ":"%char rest' =>
                    match value fuel rest' with
                    | Some (v, rest'') =>
                        match skip_ws rest'' with
                        | String ","%char r => members fuel r (dict_set acc k v)
                        | String "}"%char r => Some (PDict (dict_set acc k v), r)
                        | _ => None
                        end
                    | None => None
                    end
                | _ => None
                end
            | None => None
            end
          else None
      | EmptyString => None
      end
  end.

(** [json.loads] *)
Definition loads (s : str) : result pyval :=
  match value (S (String.length s)) s with
  | Some (v, rest) =>
      match skip_ws rest with
      | EmptyString => Ok v
      | _ => Err JSONDecodeError
      end
  | None => Err JSONDecodeError
  end.
End Json.

Global Instance byte_eq_decision : EqDecision byte := Byte.byte_eq_dec.

Module Standin.
(** The requested number of bytes, read off the key material and the
    salt. *)
Definition derive (kdf : PBKDF2) (key_material : bytes) : bytes :=
  take (kdf_length kdf)
    (key_material ++ kdf_salt kdf ++ replicate (kdf_length kdf) x00)%list.

(** The token is the message behind the two halves of the key. *)
Definition tag (c : Fernet) : bytes :=
  (signing_key c ++ encryption_key c)%list.

Definition encrypt (c : Fernet) (rnd : entropy) (m : bytes) : bytes :=
  (tag c ++ m)%list.

Definition decrypt (c : Fernet) (token : bytes) : result bytes :=
  if bool_decide (take (length (tag c)) token = tag c)
  then Ok (drop (length (tag c)) token)
  else Err InvalidToken.
End Standin.

Definition reference : Library := {|
  json_dumps := Json.dumps;
  json_loads := Json.loads;
  b64encode := Base64.encode Base64.std_alphabet;
  b64decode := Base64.decode_result Base64.std_alphabet;
  urlsafe_b64encode := Base64.encode Base64.url_alphabet;
  urlsafe_b64decode := Base64.decode_result Base64.url_alphabet;
  import_PBKDF2 := Ok Standin.derive;
  Fernet_encrypt := Standin.encrypt;
  Fernet_decrypt := Standin.decrypt
|}.

(** The operations of [L] with, as in the published package, no name
    [PBKDF2] to import. *)
Definition without_PBKDF2 (L : Library) : Library := {|
  json_dumps := json_dumps;
  json_loads := json_loads;
  b64encode := b64encode;
  b64decode := b64decode;
  urlsafe_b64encode := urlsafe_b64encode;
  urlsafe_b64decode := urlsafe_b64decode;
  import_PBKDF2 := Err ImportError;
  Fernet_encrypt := Fernet_encrypt;
  Fernet_decrypt := Fernet_decrypt
|}.

(** ** Contracts of the libraries *)

Section Contracts.
Context (L : Library).

(** [base64.b64decode] undoes [base64.b64encode]. *)
Definition Base64Roundtrip : Prop :=
  ∀ x, b64decode (b64encode x) = Ok x.

(** Base64 text is ASCII. *)
Definition Base64Ascii : Prop :=
  ∀ x, is_ascii (b64encode x) = true.

Definition UrlsafeRoundtrip : Prop :=
  ∀ x, urlsafe_b64decode (urlsafe_b64encode x) = Ok x.

(** [derive] returns [length] bytes. *)
Definition KdfLength : Prop :=
  ∀ derive kdf m,
    import_PBKDF2 = Ok derive → length (derive kdf m) = kdf_length kdf.

(** [json.dumps] escapes everything outside ASCII (its default). *)
Definition JsonAscii : Prop :=
  ∀ v s, json_dumps v = Ok s → is_ascii (str_encode s) = true.

(** A cipher decrypts its own tokens. *)
Definition FernetCorrect : Prop :=
  ∀ c rnd m, Fernet_decrypt c (Fernet_encrypt c rnd m) = Ok m.

Definition wf_cipher (c : Fernet) : Prop :=
  length (signing_key c) = 16%nat ∧ length (encryption_key c) = 16%nat.

End Contracts.

(** ** Observations on runs *)

(** The parameters of the key derivation in [_create_cipher]. *)
Definition the_kdf : PBKDF2 :=
  {| kdf_algorithm := SHA256; kdf_length := 32;
     kdf_salt := str_encode "keyvalue-store-salt-change-this!";
     kdf_iterations := 100000 |}.

(** A status that [raise_for_status] turns into an exception. *)
Definition error_status (st : Z) : Prop := 400 ≤ st < 600.

(** [d] comes back from [json.loads(json.dumps(d))]. *)
Definition json_stable `{L : Library} (d : pyval) : Prop :=
  ∃ s, json_dumps d = Ok s ∧ json_loads s = Ok d.

(** A service that gives the same answer to every request. *)
Definition constant_server (resp : response)
  : unit -> request -> unit * result response :=
  fun s _ => (s, Ok resp).

Definition text_of (v : pyval) : str :=
  match Json.dumps v with
  | Ok s => s
  | Err _ => EmptyString
  end.

(** An alphabet is usable when each of its 64 characters is found back at
    its own position, differs from the padding and is ASCII. *)
Definition good_alphabet (al : bytes) : bool :=
  forallb
    (fun n =>
       match Base64.index al (Base64.char al n) with
       | Some m => m =? n
       | None => false
       end
       && negb (Byte.eqb (Base64.char al n) Base64.pad)
       && (byte_val (Base64.char al n) <? 128))
    (seqZ 0 64).

(** The cipher made of a 32-byte key. *)
Definition key_of (raw : bytes) : Fernet :=
  {| signing_key := take 16 raw; encryption_key := drop 16 raw |}.

(** The envelope around the token of [json_str]. *)
Definition envelope `{L : Library} (self : EncryptedKeyValueClient.t)
    (rnd : entropy) (json_str : str) : pyval :=
  PDict [("encrypted", PBool true);
         ("payload",
          PStr (string_of_list_byte
                  (b64encode (Fernet_encrypt (EncryptedKeyValueClient.cipher self)
                                rnd (str_encode json_str)))))].

(** The dict that [store] posts. *)
Definition store_body (token : str) (data : pyval) (ttl : option Z) : dict :=
  let payload := [("token", PStr token); ("data", data)] in
  if truthy_opt_int ttl then dict_set payload "ttl" (opt_int_val ttl) else payload.

Definition store_request (base_url token : str) (data : pyval) (ttl : option Z)
  : request :=
  {| req_method := POST; req_url := base_url +:+ "/api/store"; req_params := [];
     req_json := Some (PDict (store_body token data ttl));
     req_headers := [("Content-Type", "application/json")] |}.

Definition retrieve_request (base_url token : str) : request :=
  {| req_method := GET; req_url := base_url +:+ "/api/retrieve";
     req_params := [("token", token)]; req_json := None; req_headers := [] |}.

Definition generate_request (base_url : str) : request :=
  {| req_method := GET; req_url := base_url +:+ "/api/generate";
     req_params := []; req_json := None; req_headers := [] |}.

(** What a method makes of the answer to its request: the status check,
    then the parsed body. *)
Definition checked_json `{L : Library} (resp : response) : result pyval :=
  if (400 <=? status_code resp) && (status_code resp <? 600)
  then Err (HTTPError (status_code resp))
  else json_loads (text resp).

(** A program returns a value only after a request answered with a status
    outside 400..599, and raises [HTTPError] when a request of its is
    answered with a status inside. *)
Definition status_checked {A} (p : prog A) : Prop :=
  ∀ (S : Type) (server : S → request → S * result response) (s : S),
    (∀ v, outcome server p s = Ok v →
       ∃ r s' resp, sent server p s = [r] ∧ server s r = (s', Ok resp)
                    ∧ ¬ error_status (status_code resp))
    ∧ (∀ r s' resp, r ∈ sent server p s → server s r = (s', Ok resp) →
         error_status (status_code resp) →
         outcome server p s = Err (HTTPError (status_code resp))).

(** ** Sample data *)

Definition sample_url : str := "http://localhost:3000".
Definition sample_token : str := "brave-otter-maple-delta-quartz".
Definition sample_password : str := "my-super-secret-password-123".
Definition wrong_password : str := "wrong-password".

Definition sample_data : pyval :=
  PDict [("user", PStr "alice");
         ("settings", PDict [("theme", PStr "dark"); ("notifications", PBool true)]);
         ("scores", PList [PInt 95; PInt 87; PInt 92])].

Definition sample_entropy : entropy :=
  {| current_time := 1760313600; iv := replicate 16 x2a |}.

Definition sample_client : KeyValueClient.t :=
  KeyValueClient.__init__ sample_url.

Definition client_of (password : str) : EncryptedKeyValueClient.t :=
  {| EncryptedKeyValueClient.base_url := sample_url;
     EncryptedKeyValueClient.cipher :=
       key_of (Standin.derive the_kdf (str_encode password)) |}.

Definition sample_config : EntryStore.config :=
  {| EntryStore.valid_token := fun t => negb (String.eqb t EmptyString);
     EntryStore.normalize := fun t => t;
     EntryStore.serialized_size := fun v => Z.of_nat (String.length (text_of v));
     EntryStore.MAX_PAYLOAD := 1048576;
     EntryStore.default_ttl := None |}.

(** Answers of the service. *)
Definition sample_ok : response :=
  {| status_code := 200;
     text := text_of (PDict [("success", PBool true); ("size", PInt 19)]) |}.

Definition sample_found (data : pyval) : response :=
  {| status_code := 200; text := text_of (PDict [("data", data)]) |}.

Definition sample_multiple_choices : response :=
  {| status_code := 300; text := text_of (PDict [("token", PStr sample_token)]) |}.

Definition sample_not_found : response :=
  {| status_code := 404; text := text_of (PDict [("error", PStr "not found")]) |}.

Definition sample_envelope : pyval :=
  envelope (L:=reference) (client_of sample_password) sample_entropy
    (text_of sample_data).

(** ** Further observations *)

(** The text consists of slashes only. *)
Fixpoint all_slashes (s : str) : bool :=
  match s with
  | EmptyString => true
  | String c t => Ascii.eqb c "/"%char && all_slashes t
  end.

(** The last character of a text, if it has one. *)
Fixpoint last_char (s : str) : option ascii :=
  match s with
  | EmptyString => None
  | String c EmptyString => Some c
  | String _ t => last_char t
  end.

(** The exception of [body[k]] when the lookup fails. *)
Definition lookup_error (body : pyval) (k : str) : exn :=
  match body with
  | PDict _ => KeyError k
  | _ => TypeError
  end.

(** Truth value of [d.get("encrypted")]. *)
Definition has_flag (d : dict) : bool :=
  truthy (default PNone (dict_get d "encrypted")).

(** A program makes at most one call of [requests.get] or
    [requests.post]; redirects that the library follows inside a call are
    the library's. *)
Definition single_request {A} (p : prog A) : Prop :=
  ∀ (S : Type) (server : S → request → S * result response) (s : S),
    (length (sent server p s) ≤ 1)%nat.

(** More sample data. *)
Definition sample_url_slashes : str := "http://localhost:3000//".

Definition sample_no_fields : response :=
  {| status_code := 200; text := text_of (PDict [("success", PBool true)]) |}.

Definition sample_unserializable : pyval :=
  PDict [("tags", PSet [PStr "draft"])].



Definition sample_payload : pyval :=
  match sample_envelope with
  | PDict d => default PNone (dict_get d "payload")
  | _ => PNone
  end.

Definition sample_annotated : dict :=
  [("payload", sample_payload); ("note", PStr "kept by the caller");
   ("encrypted", PInt 1)].

(** * Properties *)

Lemma byte_val_range (b : byte) : 0 ≤ byte_val b < 256.
Proof.
  unfold byte_val. pose proof (Byte.to_N_bounded b). lia.
Qed.

Lemma of_val_byte_val (b : byte) : Base64.of_val (byte_val b) = b.
Proof.
  unfold Base64.of_val.
  rewrite Z.mod_small by apply byte_val_range.
  unfold byte_val. rewrite N2Z.id, Byte.of_to_N. reflexivity.
Qed.

Lemma sextets (a b c : Z) :
  0 ≤ a < 256 → 0 ≤ b < 256 → 0 ≤ c < 256 →
  (a / 4) * 4 + (a mod 4 * 16 + b / 16) / 16 = a
  ∧ (a mod 4 * 16 + b / 16) mod 16 * 16 + (b mod 16 * 4 + c / 64) / 4 = b
  ∧ (b mod 16 * 4 + c / 64) mod 4 * 64 + c mod 64 = c
  ∧ 0 ≤ a / 4 < 64 ∧ 0 ≤ a mod 4 * 16 + b / 16 < 64
  ∧ 0 ≤ b mod 16 * 4 + c / 64 < 64 ∧ 0 ≤ c mod 64 < 64.
Proof. intros. Z.div_mod_to_equations. lia. Qed.

Lemma sextets1 (a : Z) :
  0 ≤ a < 256 →
  (a / 4) * 4 + (a mod 4 * 16) / 16 = a
  ∧ 0 ≤ a / 4 < 64 ∧ 0 ≤ a mod 4 * 16 < 64.
Proof. intros. Z.div_mod_to_equations. lia. Qed.

Lemma sextets2 (a b : Z) :
  0 ≤ a < 256 → 0 ≤ b < 256 →
  (a / 4) * 4 + (a mod 4 * 16 + b / 16) / 16 = a
  ∧ (a mod 4 * 16 + b / 16) mod 16 * 16 + (b mod 16 * 4) / 4 = b
  ∧ 0 ≤ a / 4 < 64 ∧ 0 ≤ a mod 4 * 16 + b / 16 < 64
  ∧ 0 ≤ b mod 16 * 4 < 64.
Proof. intros. Z.div_mod_to_equations. lia. Qed.

Lemma std_alphabet_good : good_alphabet Base64.std_alphabet = true.
Proof. by vm_compute. Qed.

Lemma url_alphabet_good : good_alphabet Base64.url_alphabet = true.
Proof. by vm_compute. Qed.

Lemma list_ind3 {A} (P : list A → Prop) :
  P [] → (∀ a, P [a]) → (∀ a b, P [a; b]) →
  (∀ a b c l, P l → P (a :: b :: c :: l)) → ∀ l, P l.
Proof.
  intros H0 H1 H2 H3.
  fix IH 1. intros [|a [|b [|c l]]]; [exact H0 | apply H1 | apply H2 |].
  apply H3, IH.
Qed.

Lemma byte_eqb_false (x y : byte) : x ≠ y → Byte.eqb x y = false.
Proof.
  intros Hne. destruct (Byte.eqb x y) eqn:E; [|done].
  apply Byte.byte_dec_bl in E. done.
Qed.

Section Base64Facts.
Variable al : bytes.
Hypothesis Hgood : good_alphabet al = true.

Lemma good_at n : 0 ≤ n < 64 →
  Base64.index al (Base64.char al n) = Some n
  ∧ Byte.eqb (Base64.char al n) Base64.pad = false
  ∧ (byte_val (Base64.char al n) <? 128) = true.
Proof using Hgood.
  intros Hn. unfold good_alphabet in Hgood.
  rewrite forallb_forall in Hgood.
  specialize (Hgood n). rewrite <- list_elem_of_In, elem_of_seqZ in Hgood.
  apply andb_prop in Hgood as [Hgood Ha]; [|lia].
  apply andb_prop in Hgood as [Hi Hp].
  split; [|split; [by apply negb_true_iff | done]].
  destruct (Base64.index al (Base64.char al n)) as [m|]; [|done].
  by apply Z.eqb_eq in Hi as ->.
Qed.

Lemma decode_encode l : Base64.decode al (Base64.encode al l) = Some l.
Proof using Hgood.
  induction l as [|a|a b|a b c l IH] using list_ind3.
  - reflexivity.
  - pose proof (byte_val_range a) as Ha.
    destruct (sextets1 (byte_val a)) as (E1 & R1 & R2); [lia|].
    cbn [Base64.encode Base64.decode].
    destruct (good_at _ R1) as (-> & _ & _).
    destruct (good_at _ R2) as (-> & _ & _).
    change (Byte.eqb Base64.pad Base64.pad) with true. cbn.
    by rewrite E1, of_val_byte_val.
  - pose proof (byte_val_range a) as Ha. pose proof (byte_val_range b) as Hb.
    destruct (sextets2 (byte_val a) (byte_val b)) as (E1 & E2 & R1 & R2 & R3); [lia..|].
    cbn [Base64.encode Base64.decode].
    destruct (good_at _ R1) as (-> & _ & _).
    destruct (good_at _ R2) as (-> & _ & _).
    destruct (good_at _ R3) as (-> & -> & _).
    change (Byte.eqb Base64.pad Base64.pad) with true. cbn.
    by rewrite E1, E2, !of_val_byte_val.
  - pose proof (byte_val_range a) as Ha. pose proof (byte_val_range b) as Hb.
    pose proof (byte_val_range c) as Hc.
    destruct (sextets (byte_val a) (byte_val b) (byte_val c))
      as (E1 & E2 & E3 & R1 & R2 & R3 & R4); [lia..|].
    cbn [Base64.encode Base64.decode].
    destruct (good_at _ R1) as (-> & _ & _).
    destruct (good_at _ R2) as (-> & _ & _).
    destruct (good_at _ R3) as (-> & -> & _).
    destruct (good_at _ R4) as (-> & -> & _).
    rewrite IH. cbn.
    by rewrite E1, E2, E3, !of_val_byte_val.
Qed.

Lemma encode_ascii l : is_ascii (Base64.encode al l) = true.
Proof using Hgood.
  induction l as [|a|a b|a b c l IH] using list_ind3.
  - reflexivity.
  - pose proof (byte_val_range a) as Ha.
    destruct (sextets1 (byte_val a)) as (_ & R1 & R2); [lia|].
    cbn [Base64.encode is_ascii forallb].
    destruct (good_at _ R1) as (_ & _ & ->).
    destruct (good_at _ R2) as (_ & _ & ->). reflexivity.
  - pose proof (byte_val_range a) as Ha. pose proof (byte_val_range b) as Hb.
    destruct (sextets2 (byte_val a) (byte_val b)) as (_ & _ & R1 & R2 & R3); [lia..|].
    cbn [Base64.encode is_ascii forallb].
    destruct (good_at _ R1) as (_ & _ & ->).
    destruct (good_at _ R2) as (_ & _ & ->).
    destruct (good_at _ R3) as (_ & _ & ->). reflexivity.
  - pose proof (byte_val_range a) as Ha. pose proof (byte_val_range b) as Hb.
    pose proof (byte_val_range c) as Hc.
    destruct (sextets (byte_val a) (byte_val b) (byte_val c))
      as (_ & _ & _ & R1 & R2 & R3 & R4); [lia..|].
    cbn [Base64.encode is_ascii forallb].
    destruct (good_at _ R1) as (_ & _ & ->).
    destruct (good_at _ R2) as (_ & _ & ->).
    destruct (good_at _ R3) as (_ & _ & ->).
    destruct (good_at _ R4) as (_ & _ & ->).
    exact IH.
Qed.
End Base64Facts.

Lemma ascii_utf8_valid (l : bytes) : is_ascii l = true → utf8_valid l = true.
Proof.
  induction l as [|b t IH]; [done|].
  cbn [is_ascii forallb utf8_valid]. intros [Hb Ht]%andb_prop.
  rewrite Hb. by apply IH.
Qed.

Lemma bytes_decode_ascii (l : bytes) :
  is_ascii l = true → bytes_decode l = Ok (string_of_list_byte l).
Proof. intros H. unfold bytes_decode. by rewrite ascii_utf8_valid. Qed.

Lemma str_encode_decode (s : str) :
  is_ascii (str_encode s) = true → bytes_decode (str_encode s) = Ok s.
Proof.
  intros H. rewrite bytes_decode_ascii by done.
  unfold str_encode. by rewrite string_of_list_byte_of_string.
Qed.

Lemma str_encode_of_bytes (b : bytes) : str_encode (string_of_list_byte b) = b.
Proof. apply list_byte_of_string_of_list_byte. Qed.

(** The reference library meets the contracts. *)
Lemma reference_b64_roundtrip : Base64Roundtrip reference.
Proof.
  intros x. cbn. unfold Base64.decode_result.
  by rewrite (decode_encode _ std_alphabet_good).
Qed.

Lemma reference_b64_ascii : Base64Ascii reference.
Proof. intros x. apply (encode_ascii _ std_alphabet_good). Qed.

Lemma reference_urlsafe_roundtrip : UrlsafeRoundtrip reference.
Proof.
  intros x. cbn. unfold Base64.decode_result.
  by rewrite (decode_encode _ url_alphabet_good).
Qed.

Lemma reference_kdf_length : KdfLength reference.
Proof.
  intros derive kdf m [= <-]. unfold Standin.derive.
  rewrite length_take, !length_app, length_replicate. lia.
Qed.

Lemma reference_json_ascii : JsonAscii reference.
Proof.
  intros v s. cbn. unfold Json.dumps.
  destruct (Json.render v) as [r|]; [|done].
  destruct (is_ascii (str_encode r)) eqn:E; [|done].
  by intros [= <-].
Qed.

Lemma reference_fernet_correct : FernetCorrect reference.
Proof.
  intros c rnd m. cbn. unfold Standin.decrypt, Standin.encrypt.
  rewrite take_app_length, drop_app_length.
  by rewrite bool_decide_eq_true_2.
Qed.

Import EncryptedKeyValueClient.

Section Encryption.
Context `{L : Library}.

Lemma create_cipher_eq (password : str) (derive : PBKDF2 → bytes → bytes)
    (key_material : bytes) :
  UrlsafeRoundtrip L → KdfLength L →
  import_PBKDF2 = Ok derive → encode_text password = Ok key_material →
  _create_cipher password = Ok (key_of (derive the_kdf key_material)).
Proof.
  intros Hurl Hkdf Himport Hencode. unfold _create_cipher, Fernet_init.
  rewrite Himport. cbn. rewrite Hencode. cbn.
  fold the_kdf. rewrite Hurl, (Hkdf derive) by done. reflexivity.
Qed.

Lemma key_of_wf (raw : bytes) : length raw = 32%nat → wf_cipher (key_of raw).
Proof.
  intros H. split; cbn; [rewrite length_take | rewrite length_drop]; lia.
Qed.

Lemma init_eq (base_url password : str) (derive : PBKDF2 → bytes → bytes)
    (key_material : bytes) :
  UrlsafeRoundtrip L → KdfLength L →
  import_PBKDF2 = Ok derive → encode_text password = Ok key_material →
  __init__ base_url password
  = Ok {| base_url := rstrip_slash base_url;
          cipher := key_of (derive the_kdf key_material) |}.
Proof.
  intros Hurl Hkdf Himport Hencode. unfold __init__.
  by rewrite (create_cipher_eq password derive key_material).
Qed.

Lemma encrypt_data_eq (self : t) (rnd : entropy) (d : pyval) (json_str : str) :
  Base64Ascii L → json_dumps d = Ok json_str →
  _encrypt_data self rnd d = Ok (envelope self rnd json_str).
Proof.
  intros Hascii Hd. unfold _encrypt_data. rewrite Hd. cbn.
  by rewrite bytes_decode_ascii.
Qed.

Lemma decrypt_envelope (self other : t) (rnd : entropy) (json_str : str) :
  Base64Ascii L → Base64Roundtrip L →
  _decrypt_data other (envelope self rnd json_str)
  = (decrypted ← Fernet_decrypt (cipher other)
                   (Fernet_encrypt (cipher self) rnd (str_encode json_str));
     s ← bytes_decode decrypted;
     json_loads s).
Proof.
  intros Hascii Hround. unfold _decrypt_data, envelope. cbn.
  rewrite !str_encode_of_bytes. by rewrite Hascii, Hround.
Qed.
End Encryption.

Section EncryptionClaims.
Context `{L : Library}.

(** C5: for every data [d] that [json.dumps] serializes, [_encrypt_data]
    returns a dict with exactly two keys, [encrypted] mapped to [True] and
    [payload] mapped to a string, the text of the base64 encoding of the
    Fernet token of [json.dumps(d)]. *)
Theorem encrypt_data_envelope (self : t) (rnd : entropy) (d : pyval)
    (json_str : str) :
  Base64Ascii L → json_dumps d = Ok json_str →
  ∃ payload : str,
    _encrypt_data self rnd d
    = Ok (PDict [("encrypted", PBool true); ("payload", PStr payload)])
    ∧ str_encode payload
      = b64encode (Fernet_encrypt (cipher self) rnd (str_encode json_str)).
Proof.
  intros Hascii Hd. eexists. split.
  - by apply encrypt_data_eq.
  - apply str_encode_of_bytes.
Qed.

Lemma cross_roundtrip (c1 c2 : t) (rnd : entropy) (d : pyval) :
  Base64Ascii L → Base64Roundtrip L → JsonAscii L → FernetCorrect L →
  cipher c1 = cipher c2 → json_stable d →
  ∃ env, _encrypt_data c1 rnd d = Ok env ∧ _decrypt_data c2 env = Ok d.
Proof.
  intros Hascii Hround Hjson Hfernet Hc (s & Hdump & Hload).
  exists (envelope c1 rnd s). split; [by apply encrypt_data_eq|].
  rewrite decrypt_envelope by done.
  rewrite Hc, Hfernet. cbn.
  rewrite str_encode_decode by eauto. cbn. exact Hload.
Qed.

(** C2: within one client, for every data [d] that survives
    [json.loads(json.dumps(d))], decrypting the envelope made by encrypting
    [d] returns [d]; the client is any client, so its cipher is any cipher
    that a password leads to. *)
Theorem encrypt_decrypt_roundtrip (self : t) (rnd : entropy) (d : pyval) :
  Base64Ascii L → Base64Roundtrip L → JsonAscii L → FernetCorrect L →
  json_stable d →
  ∃ env, _encrypt_data self rnd d = Ok env ∧ _decrypt_data self env = Ok d.
Proof.
  intros Hascii Hround Hjson Hfernet Hd. by apply cross_roundtrip.
Qed.


Lemma decrypt_data_guard (self : t) (e : dict) :
  (dict_get e "encrypted" = None
   ∨ ∃ v, dict_get e "encrypted" = Some v ∧ truthy v = false) →
  _decrypt_data self (PDict e) = Err (ValueError "Data is not encrypted").
Proof.
  intros [He | (v & He & Hv)]; unfold _decrypt_data; cbn; rewrite He; cbn;
    [done | by rewrite Hv].
Qed.
End EncryptionClaims.

Lemma error_status_test (st : Z) :
  error_status st ↔ (400 <=? st) && (st <? 600) = true.
Proof. unfold error_status. rewrite andb_true_iff, Z.leb_le, Z.ltb_lt. lia. Qed.

Section Runs.
Context `{L : Library} {S : Type} (server : S → request → S * result response).

Lemma run_lift {A} (r : result A) (s : S) : run server (lift r) s = (r, s, []).
Proof. by destruct r. Qed.

(** One request, then a continuation that sends nothing. *)
Lemma run_request {A} (r : request) (f : response → result A) (s : S) :
  run server (Send r (λ resp, lift (f resp))) s
  = match server s r with
    | (s', Ok resp) => (f resp, s', [r])
    | (s', Err e) => (Err e, s', [r])
    end.
Proof.
  cbn. destruct (server s r) as [s' [resp|e]]; [|done].
  by rewrite run_lift.
Qed.

Lemma run_tail {A} (resp : response) (k : pyval → prog A)
    (f : pyval → result A) (s : S) :
  (∀ data, run server (k data) s = (f data, s, [])) →
  run server (_ ← raise_for_status resp;
              data ← response_json resp;
              k data) s
  = (data ← checked_json resp; f data, s, []).
Proof.
  intros Hk. unfold raise_for_status, checked_json, response_json.
  destruct (_ && _); [done|]. cbn.
  destruct (json_loads (text resp)) as [data|e]; [|done]. cbn.
  apply Hk.
Qed.

Lemma run_get {A} (url : str) (params : list (str * str))
    (k : pyval → prog A) (f : pyval → result A) (s : S) :
  (∀ data s', run server (k data) s' = (f data, s', [])) →
  run server (response ← requests_get url params;
              _ ← raise_for_status response;
              data ← response_json response;
              k data) s
  = let r := {| req_method := GET; req_url := url; req_params := params;
                req_json := None; req_headers := [] |} in
    match server s r with
    | (s', Ok resp) => (data ← checked_json resp; f data, s', [r])
    | (s', Err e) => (Err e, s', [r])
    end.
Proof.
  intros Hk. unfold requests_get. cbn -[raise_for_status response_json].
  destruct (server s _) as [s' [resp|e]]; [|done].
  pose proof (run_tail resp k f s' (λ data, Hk data s')) as H.
  cbn in H |- *. by rewrite H.
Qed.

Lemma run_post (url : str) (json : pyval) (headers : list (str * str)) (s : S) :
  run server (response ← requests_post url json headers;
              _ ← raise_for_status response;
              response_json response) s
  = let r := {| req_method := POST; req_url := url; req_params := [];
                req_json := Some json; req_headers := headers |} in
    match json_dumps json with
    | Ok _ =>
        match server s r with
        | (s', Ok resp) => (checked_json resp, s', [r])
        | (s', Err e) => (Err e, s', [r])
        end
    | Err e => (Err (post_error e), s, [])
    end.
Proof.
  unfold requests_post. destruct (json_dumps json) as [body|e]; [|done].
  cbn -[raise_for_status response_json].
  destruct (server s _) as [s' [resp|e]]; [|done].
  unfold raise_for_status, checked_json, response_json.
  destruct (_ && _); [done|]. cbn.
  by destruct (json_loads (text resp)).
Qed.
End Runs.

Lemma store_body_ttl (token : str) (data : pyval) (ttl : option Z) :
  dict_get (store_body token data ttl) "ttl"
  = match ttl with
    | Some z => if z =? 0 then None else Some (PInt z)
    | None => None
    end.
Proof. destruct ttl as [z|]; [|done]. unfold store_body. cbn. by destruct (z =? 0). Qed.

Lemma store_body_token (token : str) (data : pyval) (ttl : option Z) :
  dict_get (store_body token data ttl) "token" = Some (PStr token).
Proof. unfold store_body. by destruct (truthy_opt_int ttl). Qed.

Lemma store_body_data (token : str) (data : pyval) (ttl : option Z) :
  dict_get (store_body token data ttl) "data" = Some data.
Proof. unfold store_body. by destruct (truthy_opt_int ttl). Qed.

Lemma checked_json_ok `{L : Library} (resp : response) (v : pyval) :
  checked_json resp = Ok v ↔
  ¬ error_status (status_code resp) ∧ json_loads (text resp) = Ok v.
Proof.
  unfold checked_json. rewrite error_status_test.
  destruct (_ && _); split; try done.
  - by intros [[] _].
  - by intros [_ ?].
Qed.

Lemma checked_json_error `{L : Library} (resp : response) :
  error_status (status_code resp) →
  checked_json resp = Err (HTTPError (status_code resp)).
Proof. intros H%error_status_test. unfold checked_json. by rewrite H. Qed.

Section Methods.
Context `{L : Library} {S : Type} (server : S → request → S * result response).

Lemma run_basic_store (self : KeyValueClient.t) (token : str) (data : pyval)
    (ttl : option Z) (s : S) :
  run server (KeyValueClient.store self token data ttl) s
  = let r := store_request (KeyValueClient.base_url self) token data ttl in
    match json_dumps (PDict (store_body token data ttl)) with
    | Ok _ =>
        match server s r with
        | (s', Ok resp) => (checked_json resp, s', [r])
        | (s', Err e) => (Err e, s', [r])
        end
    | Err e => (Err (post_error e), s, [])
    end.
Proof. apply run_post. Qed.

Lemma run_encrypted_store (self : EncryptedKeyValueClient.t) (rnd : entropy)
    (token : str) (data : pyval) (ttl : option Z) (s : S) :
  run server (EncryptedKeyValueClient.store self rnd token data ttl) s
  = match _encrypt_data self rnd data with
    | Ok env =>
        let r := store_request (EncryptedKeyValueClient.base_url self) token env ttl in
        match json_dumps (PDict (store_body token env ttl)) with
        | Ok _ =>
            match server s r with
            | (s', Ok resp) => (checked_json resp, s', [r])
            | (s', Err e) => (Err e, s', [r])
            end
        | Err e => (Err (post_error e), s, [])
        end
    | Err e => (Err e, s, [])
    end.
Proof.
  unfold EncryptedKeyValueClient.store.
  destruct (_encrypt_data self rnd data) as [env|e]; [|done].
  apply run_post.
Qed.

Lemma run_basic_retrieve (self : KeyValueClient.t) (token : str) (s : S) :
  run server (KeyValueClient.retrieve self token) s
  = let r := retrieve_request (KeyValueClient.base_url self) token in
    match server s r with
    | (s', Ok resp) => (data ← checked_json resp; getitem data "data", s', [r])
    | (s', Err e) => (Err e, s', [r])
    end.
Proof. apply run_get. intros. apply run_lift. Qed.

Lemma run_basic_generate (self : KeyValueClient.t) (s : S) :
  run server (KeyValueClient.generate_token self) s
  = let r := generate_request (KeyValueClient.base_url self) in
    match server s r with
    | (s', Ok resp) => (data ← checked_json resp; getitem data "token", s', [r])
    | (s', Err e) => (Err e, s', [r])
    end.
Proof. apply run_get. intros. apply run_lift. Qed.

Lemma run_encrypted_generate (self : EncryptedKeyValueClient.t) (s : S) :
  run server (EncryptedKeyValueClient.generate_token self) s
  = let r := generate_request (EncryptedKeyValueClient.base_url self) in
    match server s r with
    | (s', Ok resp) => (data ← checked_json resp; getitem data "token", s', [r])
    | (s', Err e) => (Err e, s', [r])
    end.
Proof. apply run_get. intros. apply run_lift. Qed.

Lemma run_encrypted_retrieve (self : EncryptedKeyValueClient.t) (token : str)
    (s : S) :
  run server (EncryptedKeyValueClient.retrieve self token) s
  = let r := retrieve_request (EncryptedKeyValueClient.base_url self) token in
    match server s r with
    | (s', Ok resp) =>
        (data ← checked_json resp;
         item ← getitem data "data";
         _decrypt_data self item, s', [r])
    | (s', Err e) => (Err e, s', [r])
    end.
Proof.
  apply run_get. intros data s'. cbn.
  destruct (getitem data "data") as [item|e]; [|done]. cbn.
  apply run_lift.
Qed.

Lemma sent_basic_store (self : KeyValueClient.t) token data ttl s r :
  r ∈ sent server (KeyValueClient.store self token data ttl) s →
  r = store_request (KeyValueClient.base_url self) token data ttl.
Proof.
  unfold sent. rewrite run_basic_store. cbn.
  destruct (json_dumps _); [|by intros ?%elem_of_nil].
  destruct (server s _) as [s' [resp|e]]; cbn; by intros ->%list_elem_of_singleton.
Qed.

Lemma sent_encrypted_store (self : EncryptedKeyValueClient.t) rnd token data ttl s r :
  r ∈ sent server (EncryptedKeyValueClient.store self rnd token data ttl) s →
  ∃ env, _encrypt_data self rnd data = Ok env
         ∧ r = store_request (EncryptedKeyValueClient.base_url self) token env ttl.
Proof.
  unfold sent. rewrite run_encrypted_store.
  destruct (_encrypt_data self rnd data) as [env|e]; [|by intros ?%elem_of_nil].
  cbn. destruct (json_dumps _); [|by intros ?%elem_of_nil].
  exists env. split; [done|].
  destruct (server s _) as [s' [resp|e]]; cbn in *; by apply list_elem_of_singleton.
Qed.
End Methods.

Section HttpClaims.
Context `{L : Library} {S : Type} (server : S → request → S * result response).

(** C1 (amended): in the body of every request that [store] of either
    client sends, the ["ttl"] field equals the supplied ttl when that is an
    integer other than zero, and is absent when no ttl or a ttl of zero was
    supplied. *)
Theorem store_ttl_field (bc : KeyValueClient.t) (ec : EncryptedKeyValueClient.t)
    (rnd : entropy) (token : str) (data : pyval) (ttl : option Z) (s : S)
    (r : request) :
  r ∈ sent server (KeyValueClient.store bc token data ttl) s
  ∨ r ∈ sent server (EncryptedKeyValueClient.store ec rnd token data ttl) s →
  ∃ body, req_json r = Some (PDict body)
    ∧ (∀ z, ttl = Some z → z ≠ 0 → dict_get body "ttl" = Some (PInt z))
    ∧ (ttl = None ∨ ttl = Some 0 → dict_get body "ttl" = None).
Proof.
  intros [->%sent_basic_store | (env & _ & ->)%sent_encrypted_store];
    (eexists; split; [reflexivity|]); rewrite store_body_ttl; split.
  all: try (intros z -> Hz; by rewrite (proj2 (Z.eqb_neq z 0) Hz)).
  all: by intros [-> | ->].
Qed.

(** C8: every request that [store] sends is a POST to [/api/store] whose
    body holds the caller's token under ["token"] and, under ["data"], the
    caller's data (basic client) or the encrypted envelope of it
    (encrypted client). *)
Theorem store_token_and_data (bc : KeyValueClient.t)
    (ec : EncryptedKeyValueClient.t) (rnd : entropy) (token : str)
    (data : pyval) (ttl : option Z) (s : S) (r : request) :
  (r ∈ sent server (KeyValueClient.store bc token data ttl) s →
   req_method r = POST
   ∧ req_url r = KeyValueClient.base_url bc +:+ "/api/store"
   ∧ ∃ body, req_json r = Some (PDict body)
       ∧ dict_get body "token" = Some (PStr token)
       ∧ dict_get body "data" = Some data)
  ∧ (r ∈ sent server (EncryptedKeyValueClient.store ec rnd token data ttl) s →
     req_method r = POST
     ∧ req_url r = EncryptedKeyValueClient.base_url ec +:+ "/api/store"
     ∧ ∃ body env, req_json r = Some (PDict body)
         ∧ _encrypt_data ec rnd data = Ok env
         ∧ dict_get body "token" = Some (PStr token)
         ∧ dict_get body "data" = Some env).
Proof.
  split.
  - intros ->%sent_basic_store. split; [done|]. split; [done|].
    eexists. split; [reflexivity|].
    by rewrite store_body_token, store_body_data.
  - intros (env & Henv & ->)%sent_encrypted_store.
    split; [done|]. split; [done|].
    exists (store_body token env ttl), env. split; [done|]. split; [done|].
    by rewrite store_body_token, store_body_data.
Qed.

(** C7: [retrieve] of the basic client sends one GET to [/api/retrieve]
    with the token as the ["token"] query parameter, and what it returns
    is exactly the ["data"] field of the JSON body of the answer. *)
Theorem retrieve_get_and_data (self : KeyValueClient.t) (token : str) (s : S) :
  let r := retrieve_request (KeyValueClient.base_url self) token in
  sent server (KeyValueClient.retrieve self token) s = [r]
  ∧ (∀ s' resp body v,
       server s r = (s', Ok resp) → ¬ error_status (status_code resp) →
       json_loads (text resp) = Ok body → getitem body "data" = Ok v →
       outcome server (KeyValueClient.retrieve self token) s = Ok v)
  ∧ (∀ v, outcome server (KeyValueClient.retrieve self token) s = Ok v →
       ∃ s' resp body,
         server s r = (s', Ok resp) ∧ ¬ error_status (status_code resp)
         ∧ json_loads (text resp) = Ok body ∧ getitem body "data" = Ok v).
Proof.
  intros r. unfold sent, outcome. rewrite run_basic_retrieve. fold r. cbn zeta.
  destruct (server s r) as [s' [resp|e]] eqn:Hs; cbn.
  - split; [done|]. split.
    + intros s'' resp' body v [= <- <-] Hst Hbody Hv.
      rewrite (proj2 (checked_json_ok resp body)) by done. exact Hv.
    + intros v Hv. exists s', resp.
      destruct (checked_json resp) as [body|e] eqn:Hc; [|done].
      apply checked_json_ok in Hc as [Hst Hbody]. by exists body.
  - split; [done|]. split; [by intros ???? [=] | done].
Qed.
End HttpClaims.

Section StatusClaims.
Context `{L : Library}.

Lemma checked_shape {A S} (server : S → request → S * result response)
    (p : prog A) (s : S) (r : request) (f : pyval → result A) :
  run server p s
  = match server s r with
    | (s', Ok resp) => (data ← checked_json resp; f data, s', [r])
    | (s', Err e) => (Err e, s', [r])
    end →
  (∀ v, outcome server p s = Ok v →
     ∃ r s' resp, sent server p s = [r] ∧ server s r = (s', Ok resp)
                  ∧ ¬ error_status (status_code resp))
  ∧ (∀ r s' resp, r ∈ sent server p s → server s r = (s', Ok resp) →
       error_status (status_code resp) →
       outcome server p s = Err (HTTPError (status_code resp))).
Proof.
  intros Hrun. unfold outcome, sent. rewrite Hrun.
  destruct (server s r) as [s' [resp|e]] eqn:Hs; cbn; split.
  - intros v Hv. exists r, s', resp. split; [done|]. split; [done|].
    destruct (checked_json resp) as [data|e] eqn:Hc; [|done].
    by apply checked_json_ok in Hc as [? _].
  - intros r' s'' resp' ->%list_elem_of_singleton Hr' Hst.
    rewrite Hs in Hr'. injection Hr' as <- <-.
    by rewrite checked_json_error.
  - done.
  - intros r' s'' resp' ->%list_elem_of_singleton Hr'. by rewrite Hs in Hr'.
Qed.

Lemma unsent_shape {A S} (server : S → request → S * result response)
    (p : prog A) (s : S) (e : exn) :
  run server p s = (Err e, s, []) →
  (∀ v, outcome server p s = Ok v →
     ∃ r s' resp, sent server p s = [r] ∧ server s r = (s', Ok resp)
                  ∧ ¬ error_status (status_code resp))
  ∧ (∀ r s' resp, r ∈ sent server p s → server s r = (s', Ok resp) →
       error_status (status_code resp) →
       outcome server p s = Err (HTTPError (status_code resp))).
Proof.
  intros Hrun. unfold outcome, sent. rewrite Hrun. cbn.
  split; [done|]. by intros ??? ?%elem_of_nil.
Qed.

(** C9 (amended): each of the six client methods raises [HTTPError] when
    its request is answered with a status in 400..599, and returns a value
    only after an answer whose status is outside that range. *)
Theorem methods_check_status (bc : KeyValueClient.t)
    (ec : EncryptedKeyValueClient.t) (rnd : entropy) (token : str)
    (data : pyval) (ttl : option Z) :
  status_checked (KeyValueClient.generate_token bc)
  ∧ status_checked (KeyValueClient.store bc token data ttl)
  ∧ status_checked (KeyValueClient.retrieve bc token)
  ∧ status_checked (EncryptedKeyValueClient.generate_token ec)
  ∧ status_checked (EncryptedKeyValueClient.store ec rnd token data ttl)
  ∧ status_checked (EncryptedKeyValueClient.retrieve ec token).
Proof.
  split_and!; intros S server s.
  - eapply checked_shape, run_basic_generate.
  - pose proof (run_basic_store server bc token data ttl s) as H.
    cbn zeta in H. destruct (json_dumps _).
    + eapply (checked_shape _ _ _
                (store_request (KeyValueClient.base_url bc) token data ttl) Ok).
      rewrite H. by destruct (server s _) as [s' [resp|e]]; [destruct (checked_json resp)|].
    + by eapply unsent_shape.
  - eapply checked_shape, run_basic_retrieve.
  - eapply checked_shape, run_encrypted_generate.
  - pose proof (run_encrypted_store server ec rnd token data ttl s) as H.
    destruct (_encrypt_data ec rnd data) as [env|e]; [|by eapply unsent_shape].
    cbn zeta in H. destruct (json_dumps _).
    + eapply (checked_shape _ _ _
                (store_request (EncryptedKeyValueClient.base_url ec) token env ttl) Ok).
      rewrite H. by destruct (server s _) as [s' [resp|e]]; [destruct (checked_json resp)|].
    + by eapply unsent_shape.
  - eapply checked_shape, run_encrypted_retrieve.
Qed.

(** C10: on a dict whose ["encrypted"] key is absent or maps to a falsy
    value, [_decrypt_data] raises [ValueError], whatever the base64 and
    cipher functions would do; so [retrieve] of the encrypted client
    raises it on an entry stored without the envelope. *)
Theorem decrypt_data_requires_envelope {S} (server : S → request → S * result response)
    (self : EncryptedKeyValueClient.t) (e : dict) :
  (dict_get e "encrypted" = None
   ∨ ∃ v, dict_get e "encrypted" = Some v ∧ truthy v = false) →
  _decrypt_data self (PDict e) = Err (ValueError "Data is not encrypted")
  ∧ ∀ token s s' resp body,
      server s (retrieve_request (EncryptedKeyValueClient.base_url self) token)
        = (s', Ok resp) →
      ¬ error_status (status_code resp) →
      json_loads (text resp) = Ok body →
      getitem body "data" = Ok (PDict e) →
      outcome server (EncryptedKeyValueClient.retrieve self token) s
      = Err (ValueError "Data is not encrypted").
Proof.
  intros He. pose proof (decrypt_data_guard self e He) as Hd.
  split; [done|].
  intros token s s' resp body Hs Hst Hbody Hdata.
  unfold outcome. rewrite run_encrypted_retrieve. cbn zeta. rewrite Hs. cbn.
  rewrite (proj2 (checked_json_ok resp body)) by done. cbn.
  rewrite Hdata. cbn. exact Hd.
Qed.
End StatusClaims.

Section StoreClaims.
Import EntryStore.

Lemma live_fresh (now : Z) (lifetime : option Z) (e : Entry) :
  expires_at e = (λ t, now + t) <$> lifetime →
  from_option valid_ttl true lifetime = true →
  live now e = true.
Proof.
  intros He Hl. unfold live. rewrite He.
  destruct lifetime as [t|]; [|done]. cbn in *.
  unfold valid_ttl in Hl. apply andb_prop in Hl as [Hpos _].
  apply Z.ltb_lt in Hpos. apply Z.ltb_lt. lia.
Qed.

Lemma get_after_put (cfg : config) (now : Z) (m m' : gmap string Entry)
    (token : string) (p : pyval) (ttl : option Z) (size : Z) :
  config_ok cfg →
  put cfg now m token p ttl = Done (m', size) →
  get cfg now m' token = Done p.
Proof.
  intros Hcfg. unfold put, get.
  destruct (valid_token cfg token); [|done]. cbn.
  destruct (from_option valid_ttl true ttl) eqn:Httl; [|done]. cbn.
  destruct (MAX_PAYLOAD cfg <? serialized_size cfg p); [done|].
  intros [= <- <-]. rewrite lookup_insert_eq.
  erewrite live_fresh; [done | reflexivity |].
  destruct ttl as [t|]; [done|]. cbn.
  unfold config_ok in Hcfg. by destruct (default_ttl cfg).
Qed.

(** C6: for a valid token and a payload within the size bound, [put]
    succeeds and a [get] of the token at the same instant returns the
    payload. *)
Theorem read_your_writes (cfg : config) (now : Z) (m : gmap string Entry)
    (token : string) (p : pyval) :
  config_ok cfg →
  valid_token cfg token = true →
  serialized_size cfg p ≤ MAX_PAYLOAD cfg →
  ∃ m' size, put cfg now m token p None = Done (m', size)
             ∧ get cfg now m' token = Done p.
Proof.
  intros Hcfg Htok Hsize.
  assert (∃ m' size, put cfg now m token p None = Done (m', size))
    as (m' & size & Hput).
  { unfold put. rewrite Htok. cbn.
    rewrite (proj2 (Z.ltb_ge _ _) Hsize). eauto. }
  exists m', size. split; [done|]. by eapply get_after_put.
Qed.
End StoreClaims.

(** ** The claims on sample data *)

Lemma store_ttl_field_witness :
  ∃ r, r ∈ sent (constant_server sample_ok)
             (KeyValueClient.store (L:=reference) sample_client sample_token
                sample_data (Some 3600)) ()
       ∧ ∃ body, req_json r = Some (PDict body)
                 ∧ dict_get body "ttl" = Some (PInt 3600).
Proof.
  exists (store_request sample_url sample_token sample_data (Some 3600)).
  assert (store_request sample_url sample_token sample_data (Some 3600)
          ∈ sent (constant_server sample_ok)
              (KeyValueClient.store (L:=reference) sample_client sample_token
                 sample_data (Some 3600)) ()) as Hin.
  { apply list_elem_of_In. vm_compute. left. reflexivity. }
  split; [exact Hin|].
  destruct (store_ttl_field (L:=reference) (constant_server sample_ok)
              sample_client (client_of sample_password) sample_entropy
              sample_token sample_data (Some 3600) () _ (or_introl Hin))
    as (body & Hbody & Hset & _).
  exists body. split; [exact Hbody|]. apply Hset; [reflexivity | lia].
Defined.

(** C1 as stated fails: with a ttl of zero supplied, the body that is sent
    has no ["ttl"] field. *)
Lemma store_ttl_zero_omitted :
  ∃ r body,
    sent (constant_server sample_ok)
      (KeyValueClient.store (L:=reference) sample_client sample_token
         sample_data (Some 0)) () = [r]
    ∧ req_json r = Some (PDict body)
    ∧ dict_get body "ttl" = None
    ∧ dict_get body "ttl" ≠ Some (PInt 0).
Proof.
  exists (store_request sample_url sample_token sample_data (Some 0)).
  eexists. split; [by vm_compute|]. split; [reflexivity|]. by vm_compute.
Qed.

(** C9 as stated fails: an answer with status 300, which is not a 2xx
    status, is not rejected, and [generate_token] returns the token of its
    body. *)
Lemma status_300_returns_body :
  ¬ (200 ≤ status_code sample_multiple_choices < 300)
  ∧ outcome (constant_server sample_multiple_choices)
      (KeyValueClient.generate_token (L:=reference) sample_client) ()
    = Ok (PStr sample_token).
Proof. split; [cbn; lia | by vm_compute]. Qed.

Lemma sample_data_stable : json_stable (L:=reference) sample_data.
Proof. exists (text_of sample_data). by vm_compute. Qed.

Lemma encrypt_decrypt_roundtrip_witness :
  ∃ env,
    _encrypt_data (L:=reference) (client_of sample_password) sample_entropy
      sample_data = Ok env
    ∧ _decrypt_data (L:=reference) (client_of sample_password) env
      = Ok sample_data.
Proof.
  exact (encrypt_decrypt_roundtrip (L:=reference) (client_of sample_password)
           sample_entropy sample_data
           reference_b64_ascii reference_b64_roundtrip
           reference_json_ascii reference_fernet_correct sample_data_stable).
Defined.



Lemma encrypt_data_envelope_witness :
  json_dumps (Library:=reference) sample_data = Ok (text_of sample_data)
  ∧ ∃ payload : str,
      _encrypt_data (L:=reference) (client_of sample_password) sample_entropy
        sample_data
      = Ok (PDict [("encrypted", PBool true); ("payload", PStr payload)])
      ∧ str_encode payload
        = b64encode (Library:=reference)
            (Fernet_encrypt (Library:=reference)
               (EncryptedKeyValueClient.cipher (client_of sample_password))
               sample_entropy (str_encode (text_of sample_data))).
Proof.
  assert (json_dumps (Library:=reference) sample_data = Ok (text_of sample_data))
    as Hd by (by vm_compute).
  split; [exact Hd|].
  exact (encrypt_data_envelope (L:=reference) (client_of sample_password)
           sample_entropy sample_data (text_of sample_data)
           reference_b64_ascii Hd).
Defined.

Lemma read_your_writes_witness :
  EntryStore.config_ok sample_config
  ∧ EntryStore.valid_token sample_config sample_token = true
  ∧ EntryStore.serialized_size sample_config sample_data
    ≤ EntryStore.MAX_PAYLOAD sample_config
  ∧ ∃ m' size,
      EntryStore.put sample_config 1760313600 ∅ sample_token sample_data None
      = EntryStore.Done (m', size)
      ∧ EntryStore.get sample_config 1760313600 m' sample_token
        = EntryStore.Done sample_data.
Proof.
  assert (EntryStore.config_ok sample_config) as Hcfg by exact I.
  assert (EntryStore.valid_token sample_config sample_token = true) as Htok
    by reflexivity.
  assert (EntryStore.serialized_size sample_config sample_data
          ≤ EntryStore.MAX_PAYLOAD sample_config) as Hsize
    by (by vm_compute).
  split; [exact Hcfg|]. split; [exact Htok|]. split; [exact Hsize|].
  exact (read_your_writes sample_config 1760313600 ∅ sample_token sample_data
           Hcfg Htok Hsize).
Defined.

Lemma retrieve_get_and_data_witness :
  sent (constant_server (sample_found sample_data))
    (KeyValueClient.retrieve (L:=reference) sample_client sample_token) ()
  = [retrieve_request sample_url sample_token]
  ∧ outcome (constant_server (sample_found sample_data))
      (KeyValueClient.retrieve (L:=reference) sample_client sample_token) ()
    = Ok sample_data.
Proof.
  destruct (retrieve_get_and_data (L:=reference)
              (constant_server (sample_found sample_data))
              sample_client sample_token ()) as (Hsent & Hok & _).
  split; [exact Hsent|].
  apply (Hok () (sample_found sample_data) (PDict [("data", sample_data)])).
  - reflexivity.
  - unfold error_status. cbn. lia.
  - by vm_compute.
  - reflexivity.
Defined.

Lemma store_token_and_data_witness :
  ∃ r body,
    r ∈ sent (constant_server sample_ok)
          (KeyValueClient.store (L:=reference) sample_client sample_token
             sample_data None) ()
    ∧ req_json r = Some (PDict body)
    ∧ dict_get body "token" = Some (PStr sample_token)
    ∧ dict_get body "data" = Some sample_data.
Proof.
  assert (store_request sample_url sample_token sample_data None
          ∈ sent (constant_server sample_ok)
              (KeyValueClient.store (L:=reference) sample_client sample_token
                 sample_data None) ()) as Hin.
  { apply list_elem_of_In. vm_compute. left. reflexivity. }
  destruct (proj1 (store_token_and_data (L:=reference)
                     (constant_server sample_ok) sample_client
                     (client_of sample_password) sample_entropy sample_token
                     sample_data None () _) Hin)
    as (_ & _ & body & Hbody & Htoken & Hdata).
  eexists _, body. split; [exact Hin|].
  split; [exact Hbody|]. split; [exact Htoken | exact Hdata].
Defined.

Lemma methods_check_status_witness :
  outcome (constant_server sample_not_found)
    (KeyValueClient.retrieve (L:=reference) sample_client sample_token) ()
  = Err (HTTPError 404).
Proof.
  destruct (methods_check_status (L:=reference) sample_client
              (client_of sample_password) sample_entropy sample_token
              sample_data None) as (_ & _ & Hretrieve & _).
  destruct (Hretrieve unit (constant_server sample_not_found) ()) as [_ Herr].
  apply (Herr (retrieve_request sample_url sample_token) () sample_not_found).
  - apply list_elem_of_In. vm_compute. left. reflexivity.
  - reflexivity.
  - unfold error_status. cbn. lia.
Defined.

Lemma decrypt_data_requires_envelope_witness :
  dict_get [("user", PStr "alice")] "encrypted" = None
  ∧ _decrypt_data (L:=reference) (client_of sample_password)
      (PDict [("user", PStr "alice")])
    = Err (ValueError "Data is not encrypted")
  ∧ outcome (constant_server (sample_found (PDict [("user", PStr "alice")])))
      (EncryptedKeyValueClient.retrieve (L:=reference)
         (client_of sample_password) sample_token) ()
    = Err (ValueError "Data is not encrypted").
Proof.
  assert (dict_get [("user", PStr "alice")] "encrypted" = None) as Hnone
    by reflexivity.
  destruct (decrypt_data_requires_envelope (L:=reference)
              (constant_server (sample_found (PDict [("user", PStr "alice")])))
              (client_of sample_password) [("user", PStr "alice")]
              (or_introl Hnone)) as [Hguard Hretrieve].
  split; [exact Hnone|]. split; [exact Hguard|].
  apply (Hretrieve sample_token () ()
           (sample_found (PDict [("user", PStr "alice")]))
           (PDict [("data", PDict [("user", PStr "alice")])])).
  - reflexivity.
  - unfold error_status. cbn. lia.
  - by vm_compute.
  - reflexivity.
Defined.

(** ** Further properties of the clients *)

Lemma append_nil_l (t : str) : EmptyString +:+ t = t.
Proof. reflexivity. Qed.

Lemma append_cons (c : ascii) (s t : str) : String c s +:+ t = String c (s +:+ t).
Proof. reflexivity. Qed.

Lemma rstrip_all_slashes (t : str) :
  all_slashes t = true → rstrip_slash t = EmptyString.
Proof.
  induction t as [|c t IH]; [done|].
  cbn. intros [Hc Ht]%andb_prop. by rewrite Hc, (IH Ht).
Qed.

Lemma rstrip_slash_spec (s : str) :
  last_char (rstrip_slash s) ≠ Some "/"%char
  ∧ ∃ t, s = rstrip_slash s +:+ t ∧ all_slashes t = true.
Proof.
  induction s as [|c s [IHlast (t & IHs & IHt)]]; cbn [rstrip_slash].
  - split; [done|]. by exists EmptyString.
  - destruct (Ascii.eqb c "/") eqn:Hc; cbn [andb].
    + destruct (String.eqb (rstrip_slash s) EmptyString) eqn:He.
      * split; [done|]. apply String.eqb_eq in He.
        exists (String c t). split.
        -- rewrite He, append_nil_l in IHs. by rewrite append_nil_l, <- IHs.
        -- cbn. by rewrite Hc.
      * split.
        -- cbn. destruct (rstrip_slash s); [done|exact IHlast].
        -- exists t. split; [|done]. by rewrite append_cons, <- IHs.
    + split.
      * cbn. destruct (rstrip_slash s) eqn:Hr.
        -- intros [= ->]. by rewrite Ascii.eqb_refl in Hc.
        -- exact IHlast.
      * exists t. split; [|done]. by rewrite append_cons, <- IHs.
Qed.

Lemma rstrip_slash_unique (s b t : str) :
  s = b +:+ t → all_slashes t = true → last_char b ≠ Some "/"%char →
  rstrip_slash s = b.
Proof.
  intros -> Ht Hb. induction b as [|c b IH].
  - rewrite append_nil_l. by apply rstrip_all_slashes.
  - rewrite append_cons. cbn [rstrip_slash].
    destruct b as [|c' b].
    + rewrite append_nil_l, (rstrip_all_slashes t Ht). cbn.
      destruct (Ascii.eqb c "/") eqn:Hc; [|done].
      apply Ascii.eqb_eq in Hc as ->. done.
    + rewrite IH by exact Hb.
      cbn. by rewrite andb_false_r.
Qed.

Lemma all_slashes_app (t u : str) :
  all_slashes t = true → all_slashes u = true → all_slashes (t +:+ u) = true.
Proof.
  induction t as [|c t IH]; [done|].
  rewrite append_cons. cbn. intros [-> Ht]%andb_prop Hu. by apply IH.
Qed.

Lemma append_assoc (a b c : str) : (a +:+ b) +:+ c = a +:+ (b +:+ c).
Proof.
  induction a as [|x a IH]; [done|]. by rewrite !append_cons, IH.
Qed.

Lemma rstrip_slash_app (s t : str) :
  all_slashes t = true → rstrip_slash (s +:+ t) = rstrip_slash s.
Proof.
  intros Ht. destruct (rstrip_slash_spec s) as (Hlast & u & Hs & Hu).
  apply (rstrip_slash_unique _ _ (u +:+ t)); [|by apply all_slashes_app|done].
  by rewrite <- append_assoc, <- Hs.
Qed.

Section InitFacts.
Context `{L : Library}.

(** X1: the base URL kept by either constructor is the given URL without
    its trailing slashes: it does not end in a slash, the given URL is it
    followed by slashes only, and giving more trailing slashes builds the
    same client. *)
Theorem init_strips_trailing_slashes (url password : str)
    (ec : EncryptedKeyValueClient.t) :
  EncryptedKeyValueClient.__init__ url password = Ok ec →
  let b := KeyValueClient.base_url (KeyValueClient.__init__ url) in
  EncryptedKeyValueClient.base_url ec = b
  ∧ last_char b ≠ Some "/"%char
  ∧ (∃ t, url = b +:+ t ∧ all_slashes t = true)
  ∧ (∀ t, all_slashes t = true →
       KeyValueClient.__init__ (url +:+ t) = KeyValueClient.__init__ url
       ∧ EncryptedKeyValueClient.__init__ (url +:+ t) password = Ok ec).
Proof.
  intros Hinit b. unfold EncryptedKeyValueClient.__init__ in Hinit.
  destruct (_create_cipher password) as [c|e] eqn:Hc; [|done].
  cbn in Hinit. injection Hinit as <-.
  destruct (rstrip_slash_spec url) as [Hlast Hex].
  split; [done|]. split; [done|]. split; [done|].
  intros t Ht. unfold KeyValueClient.__init__, EncryptedKeyValueClient.__init__.
  rewrite Hc. cbn. by rewrite rstrip_slash_app.
Qed.
End InitFacts.

Lemma getitem_error (body : pyval) (k : str) :
  (∀ v, getitem body k ≠ Ok v) → getitem body k = Err (lookup_error body k).
Proof.
  intros Hno. destruct body; try done. cbn in *.
  destruct (dict_get d k) as [v|]; [by destruct (Hno v)|done].
Qed.

Section GetFacts.
Context `{L : Library} {S : Type} (server : S → request → S * result response).

(** What a GET method returns, read off its run. *)
Lemma get_shape {A} (p : prog A) (s : S) (r : request) (f : pyval → result A) :
  run server p s
  = match server s r with
    | (s', Ok resp) => (data ← checked_json resp; f data, s', [r])
    | (s', Err e) => (Err e, s', [r])
    end →
  sent server p s = [r]
  ∧ (∀ s' resp body,
       server s r = (s', Ok resp) → ¬ error_status (status_code resp) →
       json_loads (text resp) = Ok body → outcome server p s = f body)
  ∧ (∀ v, outcome server p s = Ok v →
       ∃ s' resp body,
         server s r = (s', Ok resp) ∧ ¬ error_status (status_code resp)
         ∧ json_loads (text resp) = Ok body ∧ f body = Ok v).
Proof.
  intros Hrun. unfold sent, outcome. rewrite Hrun.
  destruct (server s r) as [s' [resp|e]] eqn:Hs; cbn.
  - split; [done|]. split.
    + intros s'' resp' body [= <- <-] Hst Hbody.
      by rewrite (proj2 (checked_json_ok resp body)).
    + intros v Hv. exists s', resp.
      destruct (checked_json resp) as [body|e] eqn:Hc; [|done].
      apply checked_json_ok in Hc as [Hst Hbody]. by exists body.
  - split; [done|]. split; [by intros ??? [=] | done].
Qed.

(** X2: [generate_token] of either client sends one GET to
    [/api/generate], without parameters or body, and returns [v] exactly
    when the answer passes the status check and its JSON body has [v] under
    ["token"]. *)
Theorem generate_token_request_and_result (bc : KeyValueClient.t)
    (ec : EncryptedKeyValueClient.t) (s : S) (v : pyval) :
  (sent server (KeyValueClient.generate_token bc) s
   = [generate_request (KeyValueClient.base_url bc)]
   ∧ (outcome server (KeyValueClient.generate_token bc) s = Ok v ↔
      ∃ s' resp body,
        server s (generate_request (KeyValueClient.base_url bc)) = (s', Ok resp)
        ∧ ¬ error_status (status_code resp)
        ∧ json_loads (text resp) = Ok body ∧ getitem body "token" = Ok v))
  ∧ (sent server (EncryptedKeyValueClient.generate_token ec) s
     = [generate_request (EncryptedKeyValueClient.base_url ec)]
     ∧ (outcome server (EncryptedKeyValueClient.generate_token ec) s = Ok v ↔
        ∃ s' resp body,
          server s (generate_request (EncryptedKeyValueClient.base_url ec))
            = (s', Ok resp)
          ∧ ¬ error_status (status_code resp)
          ∧ json_loads (text resp) = Ok body ∧ getitem body "token" = Ok v)).
Proof.
  split.
  - destruct (get_shape _ s _ _ (run_basic_generate server bc s))
      as (Hsent & Hok & Honly).
    split; [done|]. split; [apply Honly|].
    intros (s' & resp & body & Hs & Hst & Hbody & Hv).
    by rewrite (Hok s' resp body).
  - destruct (get_shape _ s _ _ (run_encrypted_generate server ec s))
      as (Hsent & Hok & Honly).
    split; [done|]. split; [apply Honly|].
    intros (s' & resp & body & Hs & Hst & Hbody & Hv).
    by rewrite (Hok s' resp body).
Qed.

(** X3: [retrieve] of the encrypted client sends the same single GET as the
    basic client, and returns [d] exactly when the answer passes the status
    check, its JSON body has an item under ["data"], and [_decrypt_data]
    turns that item into [d]. *)
Theorem encrypted_retrieve_request_and_result (self : EncryptedKeyValueClient.t)
    (token : str) (s : S) (d : pyval) :
  sent server (EncryptedKeyValueClient.retrieve self token) s
  = [retrieve_request (EncryptedKeyValueClient.base_url self) token]
  ∧ (outcome server (EncryptedKeyValueClient.retrieve self token) s = Ok d ↔
     ∃ s' resp body item,
       server s (retrieve_request (EncryptedKeyValueClient.base_url self) token)
         = (s', Ok resp)
       ∧ ¬ error_status (status_code resp)
       ∧ json_loads (text resp) = Ok body
       ∧ getitem body "data" = Ok item
       ∧ _decrypt_data self item = Ok d).
Proof.
  destruct (get_shape _ s _ _ (run_encrypted_retrieve server self token s))
    as (Hsent & Hok & Honly).
  split; [done|]. split.
  - intros (s' & resp & body & Hs & Hst & Hbody & Hv)%Honly.
    destruct (getitem body "data") as [item|e] eqn:Hitem; [|done].
    by exists s', resp, body, item.
  - intros (s' & resp & body & item & Hs & Hst & Hbody & Hitem & Hd).
    rewrite (Hok s' resp body) by done. by rewrite Hitem.
Qed.

(** X4: when an answer passes the status check but its JSON body has no
    value under the expected field, [generate_token] and [retrieve] of both
    clients raise [KeyError] of that field if the body is a dict and
    [TypeError] otherwise; the encrypted [retrieve] does so before any
    decryption. *)
Theorem missing_field_raises (bc : KeyValueClient.t)
    (ec : EncryptedKeyValueClient.t) (token : str) (s s' : S)
    (resp : response) (body : pyval) :
  ¬ error_status (status_code resp) → json_loads (text resp) = Ok body →
  (server s (generate_request (KeyValueClient.base_url bc)) = (s', Ok resp) →
   (∀ v, getitem body "token" ≠ Ok v) →
   outcome server (KeyValueClient.generate_token bc) s
   = Err (lookup_error body "token"))
  ∧ (server s (generate_request (EncryptedKeyValueClient.base_url ec))
       = (s', Ok resp) →
     (∀ v, getitem body "token" ≠ Ok v) →
     outcome server (EncryptedKeyValueClient.generate_token ec) s
     = Err (lookup_error body "token"))
  ∧ (server s (retrieve_request (KeyValueClient.base_url bc) token)
       = (s', Ok resp) →
     (∀ v, getitem body "data" ≠ Ok v) →
     outcome server (KeyValueClient.retrieve bc token) s
     = Err (lookup_error body "data"))
  ∧ (server s (retrieve_request (EncryptedKeyValueClient.base_url ec) token)
       = (s', Ok resp) →
     (∀ v, getitem body "data" ≠ Ok v) →
     outcome server (EncryptedKeyValueClient.retrieve ec token) s
     = Err (lookup_error body "data")).
Proof.
  intros Hst Hbody. split_and!; intros Hs Hno.
  - destruct (get_shape _ s _ _ (run_basic_generate server bc s)) as (_ & Hok & _).
    rewrite (Hok s' resp body) by done. by apply getitem_error.
  - destruct (get_shape _ s _ _ (run_encrypted_generate server ec s)) as (_ & Hok & _).
    rewrite (Hok s' resp body) by done. by apply getitem_error.
  - destruct (get_shape _ s _ _ (run_basic_retrieve server bc token s)) as (_ & Hok & _).
    rewrite (Hok s' resp body) by done. by apply getitem_error.
  - destruct (get_shape _ s _ _ (run_encrypted_retrieve server ec token s))
      as (_ & Hok & _).
    rewrite (Hok s' resp body) by done. by rewrite getitem_error.
Qed.
End GetFacts.

Section StoreFacts.
Context `{L : Library} {S : Type} (server : S → request → S * result response).

(** X5: [store] of the basic client returns the parsed JSON body of the
    answer, whatever it holds, exactly when the payload was serialized and
    the answer passes the status check. *)
Theorem store_returns_parsed_body (bc : KeyValueClient.t) (token : str)
    (data : pyval) (ttl : option Z) (s : S) (v : pyval) :
  outcome server (KeyValueClient.store bc token data ttl) s = Ok v ↔
  ∃ serialized s' resp,
    json_dumps (PDict (store_body token data ttl)) = Ok serialized
    ∧ server s (store_request (KeyValueClient.base_url bc) token data ttl)
      = (s', Ok resp)
    ∧ ¬ error_status (status_code resp)
    ∧ json_loads (text resp) = Ok v.
Proof.
  unfold outcome. rewrite run_basic_store. cbn zeta.
  destruct (json_dumps _) as [serialized|e].
  - destruct (server s _) as [s' [resp|e]]; cbn.
    + rewrite checked_json_ok. split.
      * intros [Hst Hv]. by exists serialized, s', resp.
      * by intros (? & ? & ? & _ & [= <- <-] & Hst & Hv).
    + split; [done|]. by intros (? & ? & ? & _ & [=] & _).
  - split; [done|]. by intros (? & ? & ? & [=] & _).
Qed.

(** X6: when [json.dumps] raises [e] on the request body, [store] of the
    basic client raises what [requests.post] makes of [e]
    ([InvalidJSONError] for a [ValueError], [e] itself otherwise); when it
    raises [e] on the data, [store] of the encrypted client raises [e] from
    [_encrypt_data].  Either way no request is sent and the service is left
    untouched. *)
Theorem store_unserializable_sends_nothing (bc : KeyValueClient.t)
    (ec : EncryptedKeyValueClient.t) (rnd : entropy) (token : str)
    (data : pyval) (ttl : option Z) (s : S) (e : exn) :
  (json_dumps (PDict (store_body token data ttl)) = Err e →
   run server (KeyValueClient.store bc token data ttl) s
   = (Err (post_error e), s, []))
  ∧ (json_dumps data = Err e →
     run server (EncryptedKeyValueClient.store ec rnd token data ttl) s
     = (Err e, s, [])).
Proof.
  split; intros He.
  - rewrite run_basic_store. cbn zeta. by rewrite He.
  - rewrite run_encrypted_store. unfold _encrypt_data. by rewrite He.
Qed.

(** X7: once [_encrypt_data] has made the envelope, [store] of the
    encrypted client runs as [store] of the basic client on that envelope:
    same request, same outcome. *)
Theorem encrypted_store_is_store_of_envelope (bc : KeyValueClient.t)
    (ec : EncryptedKeyValueClient.t) (rnd : entropy) (token : str)
    (data env : pyval) (ttl : option Z) (s : S) :
  KeyValueClient.base_url bc = EncryptedKeyValueClient.base_url ec →
  _encrypt_data ec rnd data = Ok env →
  run server (EncryptedKeyValueClient.store ec rnd token data ttl) s
  = run server (KeyValueClient.store bc token env ttl) s.
Proof.
  intros Hurl Henv. rewrite run_encrypted_store, run_basic_store, Henv, Hurl.
  reflexivity.
Qed.
End StoreFacts.

Section Traffic.
Context `{L : Library}.

Lemma methods_traffic {A} (p : prog A) :
  (∀ S (server : S → request → S * result response) s,
     (∃ r f, run server p s
             = match server s r with
               | (s', Ok resp) => (f resp, s', [r])
               | (s', Err e) => (Err e, s', [r])
               end)
     ∨ ∃ e, run server p s = (Err e, s, [])) →
  single_request p.
Proof.
  intros Hp S server s. unfold sent.
  destruct (Hp S server s) as [(r & f & ->) | (e & ->)]; [|cbn; lia].
  destruct (server s r) as [s' [resp|e]]; cbn; lia.
Qed.

Lemma methods_shapes (bc : KeyValueClient.t) (ec : EncryptedKeyValueClient.t)
    (rnd : entropy) (token : str) (data : pyval) (ttl : option Z) :
  Forall (λ p : prog pyval, single_request p)
    [KeyValueClient.generate_token bc;
     KeyValueClient.store bc token data ttl;
     KeyValueClient.retrieve bc token;
     EncryptedKeyValueClient.generate_token ec;
     EncryptedKeyValueClient.store ec rnd token data ttl;
     EncryptedKeyValueClient.retrieve ec token].
Proof.
  repeat apply Forall_cons_2; [..|apply Forall_nil_2];
    apply methods_traffic; intros S server s.
  - left. eexists _, _. apply run_basic_generate.
  - rewrite run_basic_store. cbn zeta.
    destruct (json_dumps _); [left; by eexists _, _ | right; by eexists].
  - left. eexists _, _. apply run_basic_retrieve.
  - left. eexists _, _. apply run_encrypted_generate.
  - rewrite run_encrypted_store.
    destruct (_encrypt_data ec rnd data); [|right; by eexists].
    cbn zeta. destruct (json_dumps _); [left; by eexists _, _ | right; by eexists].
  - left. eexists _, _. apply run_encrypted_retrieve.
Qed.

(** X8: no client method makes more than one call of [requests.get] or
    [requests.post]. *)
Theorem methods_send_at_most_one_request (bc : KeyValueClient.t)
    (ec : EncryptedKeyValueClient.t) (rnd : entropy) (token : str)
    (data : pyval) (ttl : option Z) :
  single_request (KeyValueClient.generate_token bc)
  ∧ single_request (KeyValueClient.store bc token data ttl)
  ∧ single_request (KeyValueClient.retrieve bc token)
  ∧ single_request (EncryptedKeyValueClient.generate_token ec)
  ∧ single_request (EncryptedKeyValueClient.store ec rnd token data ttl)
  ∧ single_request (EncryptedKeyValueClient.retrieve ec token).
Proof.
  pose proof (methods_shapes bc ec rnd token data ttl) as H.
  rewrite !Forall_cons in H.
  destruct H as (?&?&?&?&?&?&_). by split_and!.
Qed.

End Traffic.

Section EnvelopeFacts.
Context `{L : Library}.

(** X10: [_encrypt_data] raises exactly when [json.dumps] raises on the
    data, and then with the same exception. *)
Theorem encrypt_data_fails_only_on_dumps (self : t) (rnd : entropy)
    (d : pyval) (e : exn) :
  Base64Ascii L →
  (_encrypt_data self rnd d = Err e ↔ json_dumps d = Err e).
Proof.
  intros Hascii. destruct (json_dumps d) as [s|e'] eqn:Hd.
  - rewrite (encrypt_data_eq self rnd d s Hascii Hd). by split.
  - unfold _encrypt_data. rewrite Hd. cbn. split; by intros [= ->].
Qed.

Lemma decrypt_data_dict (self : t) (d : dict) :
  _decrypt_data self (PDict d)
  = if has_flag d then
      item ← getitem (PDict d) "payload";
      payload ← b64decode_obj item;
      decrypted ← Fernet_decrypt (cipher self) payload;
      json_str ← bytes_decode decrypted;
      json_loads json_str
    else Err (ValueError "Data is not encrypted").
Proof.
  unfold _decrypt_data, has_flag, get_method.
  destruct (dict_get d "encrypted") as [flag|]; [|reflexivity].
  cbn. by destruct (truthy flag).
Qed.

(** X11: [_decrypt_data] raises [AttributeError] on a value that is not a
    dict; on a dict with a truthy flag it raises [KeyError] when there is no
    ["payload"], [TypeError] when the payload is not a string, and
    [ValueError] when the string is not ASCII. *)
Theorem decrypt_data_malformed (self : t) (v : pyval) :
  ((∀ d, v ≠ PDict d) → _decrypt_data self v = Err AttributeError)
  ∧ (∀ d, v = PDict d → has_flag d = true →
       (dict_get d "payload" = None →
        _decrypt_data self v = Err (KeyError "payload"))
       ∧ (∀ item, dict_get d "payload" = Some item →
            (∀ s, item ≠ PStr s) → _decrypt_data self v = Err TypeError)
       ∧ (∀ s, dict_get d "payload" = Some (PStr s) →
            is_ascii (str_encode s) = false →
            _decrypt_data self v
            = Err (ValueError
                     "string argument should contain only ASCII characters"))).
Proof.
  split.
  - intros Hv. destruct v; try done. by destruct (Hv d).
  - intros d -> Hflag. rewrite decrypt_data_dict, Hflag. cbn.
    split_and!.
    + by intros ->.
    + intros item -> Hitem. cbn. destruct item; try done. by destruct (Hitem s).
    + intros s -> Hs. cbn. by rewrite Hs.
Qed.

(** X12: [_decrypt_data] reads only the truth value of ["encrypted"] and the
    value of ["payload"]: two dicts that agree on these give the same
    result, so other keys are ignored and any truthy flag is accepted. *)
Theorem decrypt_data_reads_flag_and_payload_only (self : t) (d1 d2 : dict) :
  has_flag d1 = has_flag d2 →
  dict_get d1 "payload" = dict_get d2 "payload" →
  _decrypt_data self (PDict d1) = _decrypt_data self (PDict d2).
Proof.
  intros Hflag Hpayload. rewrite !decrypt_data_dict, Hflag. cbn.
  by rewrite Hpayload.
Qed.

(** X13: a value returned by [_decrypt_data] is the parsed JSON of a
    plaintext that the cipher of the client accepted for the base64-decoded
    payload of a flagged dict. *)
Theorem decrypt_data_value_authenticated (self : t) (v d : pyval) :
  _decrypt_data self v = Ok d →
  ∃ (e : dict) (s : str) (token plain : bytes) (json_str : str),
    v = PDict e ∧ has_flag e = true
    ∧ dict_get e "payload" = Some (PStr s)
    ∧ b64decode (str_encode s) = Ok token
    ∧ Fernet_decrypt (cipher self) token = Ok plain
    ∧ bytes_decode plain = Ok json_str
    ∧ json_loads json_str = Ok d.
Proof.
  destruct v as [| | | | |e| |]; try done.
  rewrite decrypt_data_dict. destruct (has_flag e) eqn:Hflag; [|done]. cbn.
  destruct (dict_get e "payload") as [item|] eqn:Hitem; [|done]. cbn.
  destruct item as [| | |s| | | |]; try done. cbn.
  destruct (is_ascii (str_encode s)); [|done].
  destruct (b64decode (str_encode s)) as [token|] eqn:Htoken; [|done]. cbn.
  destruct (Fernet_decrypt (cipher self) token) as [plain|] eqn:Hplain; [|done].
  cbn. destruct (bytes_decode plain) as [json_str|] eqn:Hjson; [|done]. cbn.
  intros Hd. by exists e, s, token, plain, json_str.
Qed.

(** X14: [_create_cipher] raises the [ImportError] of a library that has
    no [PBKDF2], and the [UnicodeEncodeError] of a password that UTF-8
    cannot encode; otherwise it returns a cipher that holds, as two halves
    of 16 bytes, the 32 bytes that PBKDF2 (SHA-256, the fixed salt, 100000
    iterations) derives from the encoded password. *)
Theorem create_cipher_holds_derived_key (password : str) :
  UrlsafeRoundtrip L → KdfLength L →
  (∀ e, import_PBKDF2 = Err e → _create_cipher password = Err e)
  ∧ (∀ derive, import_PBKDF2 = Ok derive →
       (∀ e, encode_text password = Err e → _create_cipher password = Err e)
       ∧ (∀ m, encode_text password = Ok m →
            ∃ c, _create_cipher password = Ok c
                 ∧ wf_cipher c
                 ∧ (signing_key c ++ encryption_key c)%list
                   = derive the_kdf m)).
Proof.
  intros Hurl Hkdf. split.
  - intros e He. unfold _create_cipher. by rewrite He.
  - intros derive Himport. split.
    + intros e He. unfold _create_cipher. rewrite Himport. cbn. by rewrite He.
    + intros m Hm. rewrite (create_cipher_eq password derive m) by done.
      eexists. split; [reflexivity|].
      split; [by apply key_of_wf, (Hkdf derive) | apply take_drop].
Qed.
End EnvelopeFacts.

Section Composition.
Context `{L : Library} {S : Type} (server : S → request → S * result response).

(** What [retrieve] makes of an answer that carries [item]. *)
Lemma retrieve_of_item (reader : EncryptedKeyValueClient.t) (token : str)
    (s s' : S) (resp : response) (body item : pyval) :
  server s (retrieve_request (EncryptedKeyValueClient.base_url reader) token)
    = (s', Ok resp) →
  ¬ error_status (status_code resp) →
  json_loads (text resp) = Ok body →
  getitem body "data" = Ok item →
  outcome server (EncryptedKeyValueClient.retrieve reader token) s
  = _decrypt_data reader item.
Proof.
  intros Hs Hst Hbody Hitem. unfold outcome.
  rewrite run_encrypted_retrieve. cbn zeta. rewrite Hs. cbn.
  rewrite (proj2 (checked_json_ok resp body)) by done. cbn.
  by rewrite Hitem.
Qed.

(** The data field of the request that [store] sent is the envelope. *)
Lemma stored_envelope (writer : EncryptedKeyValueClient.t) (rnd : entropy)
    (token : str) (data : pyval) (ttl : option Z) (s0 : S) (r : request)
    (body : dict) (item : pyval) :
  Base64Ascii L →
  r ∈ sent server (EncryptedKeyValueClient.store writer rnd token data ttl) s0 →
  req_json r = Some (PDict body) →
  dict_get body "data" = Some item →
  ∃ json_str, json_dumps data = Ok json_str
              ∧ item = envelope writer rnd json_str.
Proof.
  intros Hascii (env & Henv & ->)%sent_encrypted_store [= <-].
  rewrite store_body_data. intros [= <-].
  destruct (json_dumps data) as [json_str|e] eqn:Hd.
  - exists json_str. split; [done|].
    rewrite (encrypt_data_eq _ _ _ _ Hascii Hd) in Henv. congruence.
  - unfold _encrypt_data in Henv. by rewrite Hd in Henv.
Qed.

(** X15: when the answer to [retrieve] carries under ["data"] the value
    that [store] sent there, a client holding the same cipher gets back the
    data that was stored. *)
Theorem retrieve_decrypts_what_store_sent
    (writer reader : EncryptedKeyValueClient.t) (rnd : entropy)
    (token : str) (data : pyval) (ttl : option Z) (s0 s s' : S)
    (r : request) (sent_body : dict) (item : pyval) (resp : response)
    (body : pyval) :
  Base64Ascii L → Base64Roundtrip L → JsonAscii L → FernetCorrect L →
  cipher writer = cipher reader →
  json_stable data →
  r ∈ sent server (EncryptedKeyValueClient.store writer rnd token data ttl) s0 →
  req_json r = Some (PDict sent_body) →
  dict_get sent_body "data" = Some item →
  server s (retrieve_request (EncryptedKeyValueClient.base_url reader) token)
    = (s', Ok resp) →
  ¬ error_status (status_code resp) →
  json_loads (text resp) = Ok body →
  getitem body "data" = Ok item →
  outcome server (EncryptedKeyValueClient.retrieve reader token) s = Ok data.
Proof.
  intros Hascii Hround Hjson Hfernet Hcipher (js & Hdump & Hload)
    Hsent Hreq Hitem Hs Hst Hbody Hdata.
  rewrite (retrieve_of_item reader token s s' resp body item) by done.
  destruct (stored_envelope _ _ _ _ _ _ _ _ _ Hascii Hsent Hreq Hitem)
    as (js' & Hjs' & ->).
  assert (js' = js) as -> by congruence.
  rewrite decrypt_envelope by done.
  rewrite Hcipher, Hfernet. cbn.
  rewrite str_encode_decode by eauto. exact Hload.
Qed.

(** X16: when the answer to [retrieve] carries the value that [store]
    sent and the cipher of the reading client rejects the token in it with
    an exception, [retrieve] raises that exception. *)
Theorem retrieve_propagates_rejection
    (writer reader : EncryptedKeyValueClient.t) (rnd : entropy)
    (token : str) (data : pyval) (ttl : option Z) (s0 s s' : S)
    (r : request) (sent_body : dict) (item : pyval) (resp : response)
    (body : pyval) (json_str : str) (e : exn) :
  Base64Ascii L → Base64Roundtrip L →
  json_dumps data = Ok json_str →
  Fernet_decrypt (cipher reader)
    (Fernet_encrypt (cipher writer) rnd (str_encode json_str)) = Err e →
  r ∈ sent server (EncryptedKeyValueClient.store writer rnd token data ttl) s0 →
  req_json r = Some (PDict sent_body) →
  dict_get sent_body "data" = Some item →
  server s (retrieve_request (EncryptedKeyValueClient.base_url reader) token)
    = (s', Ok resp) →
  ¬ error_status (status_code resp) →
  json_loads (text resp) = Ok body →
  getitem body "data" = Ok item →
  outcome server (EncryptedKeyValueClient.retrieve reader token) s = Err e.
Proof.
  intros Hascii Hround Hdump Hreject Hsent Hreq Hitem Hs Hst Hbody Hdata.
  rewrite (retrieve_of_item reader token s s' resp body item) by done.
  destruct (stored_envelope _ _ _ _ _ _ _ _ _ Hascii Hsent Hreq Hitem)
    as (js & Hjs & ->).
  assert (js = json_str) as -> by congruence.
  rewrite decrypt_envelope by done.
  by rewrite Hreject.
Qed.
End Composition.

(** ** The further properties on sample data *)

Lemma init_strips_trailing_slashes_witness :
  EncryptedKeyValueClient.__init__ (L:=reference) sample_url_slashes
    sample_password = Ok (client_of sample_password)
  ∧ KeyValueClient.base_url (KeyValueClient.__init__ sample_url_slashes)
    = sample_url
  ∧ last_char (KeyValueClient.base_url (KeyValueClient.__init__ sample_url_slashes))
    ≠ Some "/"%char.
Proof.
  assert (EncryptedKeyValueClient.__init__ (L:=reference) sample_url_slashes
            sample_password = Ok (client_of sample_password)) as Hinit.
  { by rewrite (init_eq (L:=reference) sample_url_slashes sample_password
                  Standin.derive (str_encode sample_password)
                  reference_urlsafe_roundtrip reference_kdf_length). }
  destruct (init_strips_trailing_slashes (L:=reference) sample_url_slashes
              sample_password (client_of sample_password) Hinit)
    as (Hb & Hlast & _).
  split; [exact Hinit|]. split; [symmetry; exact Hb | exact Hlast].
Defined.

Lemma missing_field_raises_witness :
  outcome (constant_server sample_no_fields)
    (KeyValueClient.generate_token (L:=reference) sample_client) ()
  = Err (KeyError "token")
  ∧ outcome (constant_server sample_no_fields)
      (EncryptedKeyValueClient.retrieve (L:=reference)
         (client_of sample_password) sample_token) ()
    = Err (KeyError "data").
Proof.
  assert (¬ error_status (status_code sample_no_fields)) as Hst
    by (unfold error_status; cbn; lia).
  assert (json_loads (Library:=reference) (text sample_no_fields)
          = Ok (PDict [("success", PBool true)])) as Hbody
    by (by vm_compute).
  destruct (missing_field_raises (L:=reference)
              (constant_server sample_no_fields) sample_client
              (client_of sample_password) sample_token () () sample_no_fields
              (PDict [("success", PBool true)]) Hst Hbody)
    as (Hgen & _ & _ & Hret).
  split; [apply Hgen | apply Hret]; (reflexivity || by intros v).
Defined.

Lemma encrypted_store_is_store_of_envelope_witness :
  _encrypt_data (L:=reference) (client_of sample_password) sample_entropy
    sample_data = Ok sample_envelope
  ∧ run (constant_server sample_ok)
      (EncryptedKeyValueClient.store (L:=reference) (client_of sample_password)
         sample_entropy sample_token sample_data (Some 3600)) ()
    = run (constant_server sample_ok)
        (KeyValueClient.store (L:=reference) sample_client sample_token
           sample_envelope (Some 3600)) ().
Proof.
  assert (_encrypt_data (L:=reference) (client_of sample_password)
            sample_entropy sample_data = Ok sample_envelope) as Henc
    by (by vm_compute).
  split; [exact Henc|].
  apply (encrypted_store_is_store_of_envelope (L:=reference)
           (constant_server sample_ok) sample_client
           (client_of sample_password) sample_entropy sample_token
           sample_data sample_envelope (Some 3600) ()); [reflexivity | exact Henc].
Defined.

Lemma encrypt_data_fails_only_on_dumps_witness :
  json_dumps (Library:=reference) sample_unserializable = Err TypeError
  ∧ _encrypt_data (L:=reference) (client_of sample_password) sample_entropy
      sample_unserializable = Err TypeError.
Proof.
  assert (json_dumps (Library:=reference) sample_unserializable = Err TypeError)
    as Hd by (by vm_compute).
  split; [exact Hd|].
  apply (encrypt_data_fails_only_on_dumps (L:=reference)
           (client_of sample_password) sample_entropy sample_unserializable
           TypeError reference_b64_ascii).
  exact Hd.
Defined.

Lemma decrypt_data_reads_flag_and_payload_only_witness :
  has_flag sample_annotated = true
  ∧ _decrypt_data (L:=reference) (client_of sample_password)
      (PDict sample_annotated)
    = _decrypt_data (L:=reference) (client_of sample_password) sample_envelope.
Proof.
  split; [reflexivity|].
  apply (decrypt_data_reads_flag_and_payload_only (L:=reference)
           (client_of sample_password) sample_annotated
           [("encrypted", PBool true); ("payload", sample_payload)]);
    reflexivity.
Defined.

Lemma decrypt_data_value_authenticated_witness :
  _decrypt_data (L:=reference) (client_of sample_password) sample_envelope
  = Ok sample_data
  ∧ ∃ token plain,
      Fernet_decrypt (Library:=reference)
        (EncryptedKeyValueClient.cipher (client_of sample_password)) token
      = Ok plain.
Proof.
  assert (_decrypt_data (L:=reference) (client_of sample_password)
            sample_envelope = Ok sample_data) as Hd by (by vm_compute).
  split; [exact Hd|].
  destruct (decrypt_data_value_authenticated (L:=reference)
              (client_of sample_password) sample_envelope sample_data Hd)
    as (_ & _ & token & plain & _ & _ & _ & _ & _ & Hplain & _).
  exists token, plain. exact Hplain.
Defined.

Lemma without_urlsafe_roundtrip : UrlsafeRoundtrip (without_PBKDF2 reference).
Proof. exact reference_urlsafe_roundtrip. Qed.

Lemma without_kdf_length : KdfLength (without_PBKDF2 reference).
Proof. by intros derive kdf m. Qed.

Lemma create_cipher_holds_derived_key_witness :
  _create_cipher (L:=without_PBKDF2 reference) sample_password
  = Err ImportError
  ∧ ∃ c, _create_cipher (L:=reference) sample_password = Ok c
         ∧ wf_cipher c
         ∧ (signing_key c ++ encryption_key c)%list
           = Standin.derive the_kdf (str_encode sample_password).
Proof.
  split.
  - exact (proj1 (create_cipher_holds_derived_key (L:=without_PBKDF2 reference)
                    sample_password without_urlsafe_roundtrip
                    without_kdf_length) ImportError eq_refl).
  - exact (proj2 (proj2 (create_cipher_holds_derived_key (L:=reference)
                           sample_password reference_urlsafe_roundtrip
                           reference_kdf_length) Standin.derive eq_refl)
             (str_encode sample_password) eq_refl).
Defined.

Lemma retrieve_decrypts_what_store_sent_witness :
  store_request sample_url sample_token sample_envelope None
    ∈ sent (constant_server (sample_found sample_envelope))
        (EncryptedKeyValueClient.store (L:=reference) (client_of sample_password)
           sample_entropy sample_token sample_data None) ()
  ∧ outcome (constant_server (sample_found sample_envelope))
      (EncryptedKeyValueClient.retrieve (L:=reference)
         (client_of sample_password) sample_token) ()
    = Ok sample_data.
Proof.
  assert (store_request sample_url sample_token sample_envelope None
            ∈ sent (constant_server (sample_found sample_envelope))
                (EncryptedKeyValueClient.store (L:=reference)
                   (client_of sample_password) sample_entropy sample_token
                   sample_data None) ()) as Hsent.
  { apply list_elem_of_In. vm_compute. left. reflexivity. }
  split; [exact Hsent|].
  apply (retrieve_decrypts_what_store_sent (L:=reference)
           (constant_server (sample_found sample_envelope))
           (client_of sample_password) (client_of sample_password)
           sample_entropy sample_token sample_data None () () ()
           (store_request sample_url sample_token sample_envelope None)
           (store_body sample_token sample_envelope None) sample_envelope
           (sample_found sample_envelope)
           (PDict [("data", sample_envelope)])
           reference_b64_ascii reference_b64_roundtrip reference_json_ascii
           reference_fernet_correct eq_refl sample_data_stable).
  - exact Hsent.
  - reflexivity.
  - reflexivity.
  - reflexivity.
  - unfold error_status. cbn. lia.
  - by vm_compute.
  - reflexivity.
Defined.

Lemma retrieve_propagates_rejection_witness :
  Fernet_decrypt (Library:=reference)
    (EncryptedKeyValueClient.cipher (client_of wrong_password))
    (Fernet_encrypt (Library:=reference)
       (EncryptedKeyValueClient.cipher (client_of sample_password))
       sample_entropy (str_encode (text_of sample_data)))
  = Err InvalidToken
  ∧ outcome (constant_server (sample_found sample_envelope))
      (EncryptedKeyValueClient.retrieve (L:=reference)
         (client_of wrong_password) sample_token) ()
    = Err InvalidToken.
Proof.
  assert (Fernet_decrypt (Library:=reference)
            (EncryptedKeyValueClient.cipher (client_of wrong_password))
            (Fernet_encrypt (Library:=reference)
               (EncryptedKeyValueClient.cipher (client_of sample_password))
               sample_entropy (str_encode (text_of sample_data)))
          = Err InvalidToken) as Hreject by (by vm_compute).
  split; [exact Hreject|].
  apply (retrieve_propagates_rejection (L:=reference)
           (constant_server (sample_found sample_envelope))
           (client_of sample_password) (client_of wrong_password)
           sample_entropy sample_token sample_data None () () ()
           (store_request sample_url sample_token sample_envelope None)
           (store_body sample_token sample_envelope None) sample_envelope
           (sample_found sample_envelope)
           (PDict [("data", sample_envelope)])
           (text_of sample_data) InvalidToken
           reference_b64_ascii reference_b64_roundtrip).
  - by vm_compute.
  - exact Hreject.
  - apply list_elem_of_In. vm_compute. left. reflexivity.
  - reflexivity.
  - reflexivity.
  - reflexivity.
  - unfold error_status. cbn. lia.
  - by vm_compute.
  - reflexivity.
Defined.

Lemma store_unserializable_sends_nothing_witness :
  json_dumps (Library:=reference) sample_unserializable = Err TypeError
  ∧ run (constant_server sample_ok)
      (KeyValueClient.store (L:=reference) sample_client sample_token
         sample_unserializable None) ()
    = (Err TypeError, (), [])
  ∧ run (constant_server sample_ok)
      (EncryptedKeyValueClient.store (L:=reference) (client_of sample_password)
         sample_entropy sample_token sample_unserializable None) ()
    = (Err TypeError, (), []).
Proof.
  assert (json_dumps (Library:=reference) sample_unserializable = Err TypeError)
    as Hd by (by vm_compute).
  assert (json_dumps (Library:=reference)
            (PDict (store_body sample_token sample_unserializable None))
          = Err TypeError) as Hbody by (by vm_compute).
  destruct (store_unserializable_sends_nothing (L:=reference)
              (constant_server sample_ok) sample_client
              (client_of sample_password) sample_entropy sample_token
              sample_unserializable None () TypeError) as [Hbasic Hencrypted].
  split; [exact Hd|]. split; [exact (Hbasic Hbody) | exact (Hencrypted Hd)].
Defined.

Lemma decrypt_data_malformed_witness :
  _decrypt_data (L:=reference) (client_of sample_password) (PList [])
  = Err AttributeError
  ∧ _decrypt_data (L:=reference) (client_of sample_password)
      (PDict [("encrypted", PBool true)])
    = Err (KeyError "payload").
Proof.
  split.
  - apply (decrypt_data_malformed (L:=reference) (client_of sample_password)
             (PList [])). by intros d.
  - apply (proj2 (decrypt_data_malformed (L:=reference)
                    (client_of sample_password)
                    (PDict [("encrypted", PBool true)]))
             [("encrypted", PBool true)]); reflexivity.
Defined.
